(** * The Jenca authentication service

    A shallow embedding of [authentication/authentication.py]: the [User]
    model, the two Flask-Login loader callbacks, and the five views
    ([signup], [login], [logout], [specific_user_route], [status]), together
    with the part of Flask-Login the views rely on.

    The views talk to a separate storage service over HTTP.  A view is
    therefore embedded as a finite tree of storage calls ([Prog]): every
    node is one [requests.get] / [requests.post] / [requests.delete], and the
    continuation receives the HTTP response.  Running a tree against a
    storage machine ([run]) threads the storage state and records the calls
    that were made. *)

From Stdlib Require Import ZArith String Ascii List Lia.
From stdpp Require Import gmap strings list.

Set Warnings "-register-all".

(** ** JSON values, as [json.loads] decodes them *)

Inductive json : Type :=
| JNull
| JBool (b : bool)
| JNum (n : Z)
| JStr (s : string)
| JArr (items : list json)
| JObj (members : gmap string json).

(** ** HTTP status codes ([requests.codes]) *)

Module codes.
Definition OK : Z := 200.
Definition CREATED : Z := 201.
Definition BAD_REQUEST : Z := 400.
Definition UNAUTHORIZED : Z := 401.
Definition NOT_FOUND : Z := 404.
Definition CONFLICT : Z := 409.
Definition UNSUPPORTED_MEDIA_TYPE : Z := 415.
Definition INTERNAL_SERVER_ERROR : Z := 500.
End codes.

(** ** The storage service, seen from the views

    The four calls the source makes, named by the storage operation they
    reach.  The string of [GetUser] and of [DeleteUser] is the text the
    source splices, as it is and without escaping, into the URL after
    [users/]; which user route this URL reaches, if any, is for the storage
    machine to say. *)

Inductive StorageRequest : Type :=
| GetUser (email : string)
    (* requests.get(urljoin(STORAGE_URL, 'users/{email}').format(email=...)) *)
| GetUsers
    (* requests.get(urljoin(STORAGE_URL, '/users')) *)
| PostUsers (data : json)
    (* requests.post(urljoin(STORAGE_URL, '/users'), data=json.dumps(data)) *)
| DeleteUser (email : string).
    (* requests.delete(urljoin(STORAGE_URL, '/users/{email}'.format(...))) *)

(** [text] is the response text as [json.loads] decodes it; [None] stands
    for a text that is not JSON. *)
Record HttpResponse : Type := {
  status_code : Z;
  text : option json
}.

(** ** Python exceptions a request can end with *)

Inductive Exception : Type :=
| KeyError (key : string)
| TypeError
| ValueError
| ValidationError (message : string)
| HTTPException (code : Z).

Inductive Outcome (A : Type) : Type :=
| Returned (a : A)
| Raised (e : Exception).
Arguments Returned {A} a.
Arguments Raised {A} e.

(** ** Programs that call the storage service *)

Inductive Prog (A : Type) : Type :=
| Done (a : A)
| Ask (rq : StorageRequest) (k : HttpResponse -> Prog A).
Arguments Done {A} a.
Arguments Ask {A} rq k.

Fixpoint prog_bind {A B : Type} (p : Prog A) (f : A -> Prog B) : Prog B :=
  match p with
  | Done a => f a
  | Ask rq k => Ask rq (fun r => prog_bind (k r) f)
  end.

(** A storage machine answers a request and moves to its next state.  Other
    clients of the same storage service are part of the machine: nothing
    forces two answers to be consistent with each other. *)
Definition Storage (S : Type) : Type := S -> StorageRequest -> HttpResponse * S.

Fixpoint run {S A : Type} (serve : Storage S) (p : Prog A) (s : S)
  : A * S * list StorageRequest :=
  match p with
  | Done a => (a, s, [])
  | Ask rq k =>
      let '(response, s1) := serve s rq in
      let '(a, s2, calls) := run serve (k response) s1 in
      (a, s2, rq :: calls)
  end.

(** ** The user model *)

Module User.
Record t : Type := Build { email : string; password_hash : string }.
End User.

(** ** Request, session and request context *)

(** The client sends the Flask session cookie (of which only [user_id]
    matters here) and the [remember_token] cookie.  [salt] is the salt
    [bcrypt.gensalt] draws while the request is served. *)
Record Request : Type := {
  mimetype : string;
  request_json : json;
  cookie_user_id : option string;
  cookie_remember_token : option string;
  salt : string
}.

Inductive RememberOp : Type := RememberSet | RememberClear.

Record Session : Type := {
  user_id : option string;
  remember : option RememberOp
}.

(** [ctx_user] is [_request_ctx_stack.top.user]: absent until the current
    user is first asked for; [Some None] is the anonymous user. *)
Record Ctx : Type := {
  request : Request;
  session : Session;
  ctx_user : option (option User.t)
}.

(** ** Views run in the request context, may raise, and call storage *)

Definition M (A : Type) : Type := Ctx -> Prog (Outcome A * Ctx).

Definition ret {A : Type} (a : A) : M A :=
  fun ctx => Done (Returned a, ctx).

Definition raise {A : Type} (e : Exception) : M A :=
  fun ctx => Done (Raised e, ctx).

Definition bind {A B : Type} (m : M A) (f : A -> M B) : M B :=
  fun ctx =>
    prog_bind (m ctx) (fun r =>
      match r with
      | (Returned a, ctx1) => f a ctx1
      | (Raised e, ctx1) => Done (Raised e, ctx1)
      end).

Declare Scope py_scope.
Delimit Scope py_scope with py.
Notation "x <- c ;; k" := (bind c (fun x => k))
  (at level 100, c at next level, right associativity) : py_scope.
Notation "c ;;; k" := (bind c (fun _ => k))
  (at level 100, right associativity) : py_scope.
Open Scope py_scope.

Definition requests (rq : StorageRequest) : M HttpResponse :=
  fun ctx => Ask rq (fun response => Done (Returned response, ctx)).

Definition get_request : M Request := fun ctx => Done (Returned (request ctx), ctx).
Definition get_session : M Session := fun ctx => Done (Returned (session ctx), ctx).
Definition set_session (s : Session) : M unit :=
  fun ctx => Done (Returned tt,
                   {| request := request ctx; session := s; ctx_user := ctx_user ctx |}).
Definition get_ctx_user : M (option (option User.t)) :=
  fun ctx => Done (Returned (ctx_user ctx), ctx).
Definition set_ctx_user (u : option User.t) : M unit :=
  fun ctx => Done (Returned tt,
                   {| request := request ctx; session := session ctx; ctx_user := Some u |}).

(** ** What the service takes from its libraries and its configuration

    [SECRET_KEY] is [app.config['SECRET_KEY']]; [hmac_sha512_hexdigest key
    msg] is [hmac.new(key, msg, sha512).hexdigest()], which Flask-Login's
    [make_secure_token] computes; the two bcrypt functions are Flask-Bcrypt's
    (the salt that [generate_password_hash] draws is made explicit);
    [jsonschema_validate schema part instance] is the error message of
    validating against [schemas/<schema>.json], if any. *)

Class Env : Type := {
  SECRET_KEY : string;
  hmac_sha512_hexdigest : string -> string -> string;
  generate_password_hash : string -> string -> string;
  check_password_hash : string -> string -> bool;
  jsonschema_validate : string -> string -> json -> option string
}.

(** ** Python on JSON values *)

(** [j[key]] *)
Definition getitem (j : json) (key : string) : M json :=
  match j with
  | JObj members =>
      match members !! key with
      | Some v => ret v
      | None => raise (KeyError key)
      end
  | _ => raise TypeError
  end.

(** The storage contract and the request schema put strings in the fields
    the service reads; a value of another type counts as malformed here. *)
Definition str_item (j : json) (key : string) : M string :=
  v <- getitem j key ;;
  match v with
  | JStr s => ret s
  | _ => raise TypeError
  end.

(** [json.loads(response.text)] *)
Definition json_loads (text : option json) : M json :=
  match text with
  | Some j => ret j
  | None => raise ValueError
  end.

(** [for details in j]: a list yields its items, a dict its keys, a string
    its characters; nothing else is iterable. *)
Definition iter (j : json) : M (list json) :=
  match j with
  | JArr items => ret items
  | JObj members => ret (map (fun kv => JStr (fst kv)) (map_to_list members))
  | JStr s => ret (map (fun c => JStr (String c EmptyString)) (list_ascii_of_string s))
  | _ => raise TypeError
  end.

Definition dquote : string := String "034"%char EmptyString.
Definition NUL : string := String "000"%char EmptyString.

(** [error.message.replace] of a [u] followed by a quote with the quote *)
Fixpoint replace_u_quote (s : string) : string :=
  match s with
  | String "u"%char (String "'"%char rest) => String "'"%char (replace_u_quote rest)
  | String c rest => String c (replace_u_quote rest)
  | EmptyString => EmptyString
  end.

(** ** Responses *)

Record Response : Type := {
  data : option json;
  http_status : Z
}.

(** [jsonify] of keyword arguments, with the status the view returns next
    to it *)
Definition jsonify (members : list (string * json)) (code : Z) : Response :=
  {| data := Some (JObj (list_to_map members)); http_status := code |}.

(** ** [class User(UserMixin)] *)

Definition make_secure_token `{Env} (args : list string) : string :=
  hmac_sha512_hexdigest SECRET_KEY (String.concat NUL args).

Definition get_auth_token `{Env} (self : User.t) : string :=
  make_secure_token [User.email self; User.password_hash self].

Definition get_id (self : User.t) : string := User.email self.

(** ** The Flask-Login callbacks *)

Definition load_user_from_id (user_id : string) : M (option User.t) :=
  response <- requests (GetUser user_id) ;;
  if (status_code response =? codes.OK)%Z then
    details <- json_loads (text response) ;;
    email <- str_item details "email" ;;
    password_hash <- str_item details "password_hash" ;;
    ret (Some (User.Build email password_hash))
  else ret None.

Fixpoint scan_users `{Env} (auth_token : string) (items : list json)
  : M (option User.t) :=
  match items with
  | [] => ret None
  | details :: rest =>
      email <- str_item details "email" ;;
      password_hash <- str_item details "password_hash" ;;
      let user := User.Build email password_hash in
      if String.eqb (get_auth_token user) auth_token then ret (Some user)
      else scan_users auth_token rest
  end.

Definition load_user_from_token `{Env} (auth_token : string) : M (option User.t) :=
  response <- requests GetUsers ;;
  body <- json_loads (text response) ;;
  items <- iter body ;;
  scan_users auth_token items.

(** ** Flask-Login, as the views use it

    [LoginManager] with the two callbacks above registered and nothing else
    configured.  The current user is [None] for the anonymous user.  Session
    protection runs in its default mode, which touches the freshness flag
    only, so the session is reduced to [user_id] and the pending [remember]
    operation. *)

Definition is_authenticated (u : option User.t) : bool :=
  match u with Some _ => true | None => false end.

(** A [user_id] that no longer loads gives the anonymous user. *)
Definition reload_user : M unit :=
  s <- get_session ;;
  match user_id s with
  | None => set_ctx_user None
  | Some uid =>
      user <- load_user_from_id uid ;;
      set_ctx_user user
  end.

Definition load_from_cookie `{Env} (cookie : string) : M unit :=
  user <- load_user_from_token cookie ;;
  match user with
  | Some u =>
      s <- get_session ;;
      set_session {| user_id := Some (get_id u); remember := remember s |} ;;;
      set_ctx_user (Some u)
  | None => reload_user
  end.

Definition load_user `{Env} : M unit :=
  s <- get_session ;;
  rq <- get_request ;;
  match user_id s, cookie_remember_token rq, remember s with
  | Some _, _, _ => reload_user
  | None, Some _, Some RememberClear => reload_user
  | None, Some cookie, _ => load_from_cookie cookie
  | None, None, _ => reload_user
  end.

(** [current_user] *)
Definition current_user `{Env} : M (option User.t) :=
  cached <- get_ctx_user ;;
  match cached with
  | Some u => ret u
  | None =>
      load_user ;;;
      loaded <- get_ctx_user ;;
      ret (default None loaded)
  end.

Definition login_user (user : User.t) (remember_me : bool) : M bool :=
  s <- get_session ;;
  set_session {| user_id := Some (get_id user);
                 remember := if remember_me then Some RememberSet else remember s |} ;;;
  set_ctx_user (Some user) ;;;
  ret true.

Definition logout_user `{Env} : M bool :=
  s <- get_session ;;
  rq <- get_request ;;
  set_session {| user_id := None;
                 remember := match cookie_remember_token rq with
                             | Some _ => Some RememberClear
                             | None => remember s
                             end |} ;;;
  _ <- current_user ;;
  reload_user ;;;
  ret true.

Definition unauthorized {A : Type} : M A := raise (HTTPException codes.UNAUTHORIZED).

Definition login_required `{Env} (view : M Response) : M Response :=
  u <- current_user ;;
  if is_authenticated u then view else unauthorized.

(** ** The other decorators *)

Definition consumes (mt : string) (view : M Response) : M Response :=
  rq <- get_request ;;
  if String.eqb (mimetype rq) mt then view
  else raise (HTTPException codes.UNSUPPORTED_MEDIA_TYPE).

Definition validate `{Env} (schema part : string) (view : M Response) : M Response :=
  rq <- get_request ;;
  match jsonschema_validate schema part (request_json rq) with
  | Some message => raise (ValidationError message)
  | None => view
  end.

Definition on_validation_error (message : string) : Response :=
  jsonify
    [("title", JStr "There was an error validating the given arguments.");
     ("detail", JStr (replace_u_quote message))]
    codes.BAD_REQUEST.

(** ** The views *)

(** The record of a user, as the service posts it to storage. *)
Definition user_details (email password_hash : string) : json :=
  JObj (list_to_map [("email", JStr email); ("password_hash", JStr password_hash)]).

Definition user_does_not_exist (email : string) : Response :=
  jsonify
    [("title", JStr "The requested user does not exist.");
     ("detail", JStr ("No user exists with the email " +:+ dquote +:+ email +:+ dquote))]
    codes.NOT_FOUND.

Definition incorrect_password (email : string) : Response :=
  jsonify
    [("title", JStr "An incorrect password was provided.");
     ("detail", JStr ("The password for the user " +:+ dquote +:+ email +:+ dquote
                      +:+ " does not match the password provided."))]
    codes.UNAUTHORIZED.

Definition user_already_exists (email : string) : Response :=
  jsonify
    [("title", JStr "There is already a user with the given email address.");
     ("detail", JStr ("A user already exists with the email " +:+ dquote +:+ email +:+ dquote))]
    codes.CONFLICT.

Definition credentials (email password : string) (code : Z) : Response :=
  jsonify [("email", JStr email); ("password", JStr password)] code.

Definition login_body `{Env} : M Response :=
  rq <- get_request ;;
  email <- str_item (request_json rq) "email" ;;
  password <- str_item (request_json rq) "password" ;;
  user <- load_user_from_id email ;;
  match user with
  | None => ret (user_does_not_exist email)
  | Some user =>
      if negb (check_password_hash (User.password_hash user) password) then
        ret (incorrect_password email)
      else
        login_user user true ;;;
        ret (credentials email password codes.OK)
  end.

Definition login `{Env} : M Response :=
  consumes "application/json" (validate "user" "get" login_body).

Definition logout_body `{Env} : M Response :=
  logout_user ;;;
  ret (jsonify [] codes.OK).

Definition logout `{Env} : M Response :=
  consumes "application/json" (login_required logout_body).

Definition specific_user_route_body (email : string) : M Response :=
  user <- load_user_from_id email ;;
  match user with
  | None => ret (user_does_not_exist email)
  | Some user =>
      requests (DeleteUser email) ;;;
      ret (jsonify [("email", JStr (User.email user))] codes.OK)
  end.

Definition specific_user_route (email : string) : M Response :=
  consumes "application/json" (specific_user_route_body email).

Definition signup_body `{Env} : M Response :=
  rq <- get_request ;;
  email <- str_item (request_json rq) "email" ;;
  password <- str_item (request_json rq) "password" ;;
  existing <- load_user_from_id email ;;
  match existing with
  | Some _ => ret (user_already_exists email)
  | None =>
      let data := user_details email (generate_password_hash (salt rq) password) in
      requests (PostUsers data) ;;;
      ret (credentials email password codes.CREATED)
  end.

Definition signup `{Env} : M Response :=
  consumes "application/json" (validate "user" "create" signup_body).

Definition status_body `{Env} : M Response :=
  u <- current_user ;;
  match u with
  | Some user =>
      ret (jsonify [("is_authenticated", JBool true); ("email", JStr (User.email user))]
                   codes.OK)
  | None => ret (jsonify [("is_authenticated", JBool false)] codes.OK)
  end.

Definition status `{Env} : M Response :=
  consumes "application/json" status_body.

(** ** One request, from the cookies sent to the cookies kept *)

Inductive CookieOp : Type :=
| SetCookie (value : string)
| ClearCookie.

(** Flask-Login's [after_request] hook *)
Definition update_remember_cookie `{Env} : M (option CookieOp) :=
  s <- get_session ;;
  match remember s with
  | None => ret None
  | Some operation =>
      set_session {| user_id := user_id s; remember := None |} ;;;
      match operation, user_id s with
      | RememberSet, Some _ =>
          u <- current_user ;;
          match u with
          | Some user => ret (Some (SetCookie (get_auth_token user)))
          | None => raise TypeError
          end
      | RememberSet, None => ret None
      | RememberClear, _ => ret (Some ClearCookie)
      end
  end.

(** What the client holds once the response has arrived: the response
    itself, the [user_id] of the session cookie and the [remember_token]
    cookie. *)
Record Reply : Type := {
  response : Response;
  new_user_id : option string;
  new_remember_token : option string
}.

(** Flask answers an [HTTPException] with its code and a [ValidationError]
    through the registered handler; any other exception leaves the request
    cycle, and the client gets a bare 500 and no cookie. *)
Definition handle_user_exception (e : Exception) : option Response :=
  match e with
  | ValidationError message => Some (on_validation_error message)
  | HTTPException code => Some {| data := None; http_status := code |}
  | _ => None
  end.

Definition apply_cookie (old : option string) (op : option CookieOp) : option string :=
  match op with
  | None => old
  | Some (SetCookie value) => Some value
  | Some ClearCookie => None
  end.

Definition start (rq : Request) : Ctx :=
  {| request := rq;
     session := {| user_id := cookie_user_id rq; remember := None |};
     ctx_user := None |}.

Definition internal_server_error (rq : Request) : Reply :=
  {| response := {| data := None; http_status := codes.INTERNAL_SERVER_ERROR |};
     new_user_id := cookie_user_id rq;
     new_remember_token := cookie_remember_token rq |}.

Definition make_response (o : Outcome Response) : option Response :=
  match o with
  | Returned r => Some r
  | Raised e => handle_user_exception e
  end.

Definition wsgi_app `{Env} (view : M Response) (rq : Request) : Prog Reply :=
  prog_bind (view (start rq)) (fun r1 =>
    match make_response (fst r1) with
    | None => Done (internal_server_error rq)
    | Some resp =>
        prog_bind (update_remember_cookie (snd r1)) (fun r2 =>
          match fst r2 with
          | Returned op =>
              Done {| response := resp;
                      new_user_id := user_id (session (snd r2));
                      new_remember_token := apply_cookie (cookie_remember_token rq) op |}
          | Raised _ => Done (internal_server_error rq)
          end)
    end).

(** The session state of the specification: who [current_user] is when a
    request arrives with the given cookies. *)
Inductive SessionState : Type :=
| Anonymous
| Authenticated (email : string).

Definition session_state (u : option User.t) : SessionState :=
  match u with
  | Some user => Authenticated (User.email user)
  | None => Anonymous
  end.

Definition resolve `{Env} {S : Type} (serve : Storage S) (rq : Request) (s : S)
  : Outcome SessionState :=
  match fst (fst (fst (run serve (current_user (start rq)) s))) with
  | Returned u => Returned (session_state u)
  | Raised e => Raised e
  end.

(** The cookies of [rq] replaced by the ones a reply left behind. *)
Definition next_request (reply : Reply) (rq : Request) : Request :=
  {| mimetype := mimetype rq;
     request_json := request_json rq;
     cookie_user_id := new_user_id reply;
     cookie_remember_token := new_remember_token reply;
     salt := salt rq |}.

(** ** Storage services to run the views against *)

(** [details] is the JSON record of user [u], whatever else it holds. *)
Definition describes (details : json) (u : User.t) : Prop :=
  exists members,
    details = JObj members /\
    members !! "email" = Some (JStr (User.email u)) /\
    members !! "password_hash" = Some (JStr (User.password_hash u)).

Definition reply_of (code : Z) (body : json) : HttpResponse :=
  {| status_code := code; text := Some body |}.

(** Modelled from the spec: the storage service (the [storage] package that
    the tests import an in-memory fake of) is a separate service whose code
    is not in the authentication package.  It is the keyed record store of
    the specification's Storage Client contract, at most one user per email:
    [getUserByEmail] gives the user or NotFound, [listUsers] gives every
    user, [createUser] gives ok or Conflict, [deleteUser] gives ok or
    NotFound.  The status codes and the record layout are the ones the
    callbacks above read.

    The email of a lookup and of a delete comes to the store through a URL.
    [lookup_route text] and [delete_route text] are the email that the
    route [/users/<email>] receives when the source has spliced [text] into
    the URL of the lookup (line 99) and of the delete (lines 233-234), or
    [None] when that URL reaches no user route.  What the URL libraries do
    to the text is theirs to say, so both are parameters. *)
Definition routed_storage (lookup_route delete_route : string -> option string)
  : Storage (gmap string string) :=
  fun users rq =>
    match rq with
    | GetUser text =>
        match lookup_route text with
        | Some email =>
            match users !! email with
            | Some password_hash =>
                (reply_of codes.OK (user_details email password_hash), users)
            | None => (reply_of codes.NOT_FOUND (JObj ∅), users)
            end
        | None => (reply_of codes.NOT_FOUND (JObj ∅), users)
        end
    | GetUsers =>
        (reply_of codes.OK
           (JArr (map (fun kv => user_details (fst kv) (snd kv)) (map_to_list users))),
         users)
    | PostUsers (JObj members) =>
        match members !! "email", members !! "password_hash" with
        | Some (JStr email), Some (JStr password_hash) =>
            match users !! email with
            | Some _ => (reply_of codes.CONFLICT (JObj ∅), users)
            | None =>
                (reply_of codes.CREATED (user_details email password_hash),
                 <[email := password_hash]> users)
            end
        | _, _ => (reply_of codes.BAD_REQUEST (JObj ∅), users)
        end
    | PostUsers _ => (reply_of codes.BAD_REQUEST (JObj ∅), users)
    | DeleteUser text =>
        match delete_route text with
        | Some email =>
            match users !! email with
            | Some _ => (reply_of codes.OK (JObj ∅), delete email users)
            | None => (reply_of codes.NOT_FOUND (JObj ∅), users)
            end
        | None => (reply_of codes.NOT_FOUND (JObj ∅), users)
        end
    end.

(** The path of a URL ends where its query ([?]) or its fragment ([#])
    begins: neither is part of the path the server routes on. *)
Fixpoint path_part (text : string) : string :=
  match text with
  | EmptyString => EmptyString
  | String c rest =>
      if (Ascii.eqb c "#" || Ascii.eqb c "?")%bool then EmptyString
      else String c (path_part rest)
  end.

Fixpoint has_slash (text : string) : bool :=
  match text with
  | EmptyString => false
  | String c rest => (Ascii.eqb c "/" || has_slash rest)%bool
  end.

(** The routes used in the examples: the text up to its query or fragment,
    which must be one segment, not empty and without a slash.  Percent
    escapes and dot segments are not interpreted; no example has them. *)
Definition sent_segment (text : string) : option string :=
  match path_part text with
  | EmptyString => None
  | segment => if has_slash segment then None else Some segment
  end.

(** The store as the examples run it. *)
Definition memory_storage : Storage (gmap string string) :=
  routed_storage sent_segment sent_segment.

(** The same store with a second client on it: whenever a lookup finds no
    user, the rival's own signup for that email reaches the store right
    after the lookup was answered. *)
Definition raced_storage (rival_hash : string) : Storage (gmap string string) :=
  fun users rq =>
    let '(answer, users1) := memory_storage users rq in
    match rq with
    | GetUser email =>
        match users1 !! email with
        | None => (answer, <[email := rival_hash]> users1)
        | Some _ => (answer, users1)
        end
    | _ => (answer, users1)
    end.

(** The same store behind a gateway that fails every delete: the call is
    answered 503 with a body that is not JSON, and nothing is deleted. *)
Definition unavailable_delete_storage : Storage (gmap string string) :=
  fun users rq =>
    match rq with
    | DeleteUser _ => ({| status_code := 503; text := None |}, users)
    | _ => memory_storage users rq
    end.

(** ** A stand-in environment, to run the model on examples

    These are not the real primitives: the tag is the key and the message
    side by side, a hash is the salt followed by the password, and the
    schema asks for the two fields the tests name. *)

Definition ends_with (s suffix : string) : bool :=
  String.eqb
    (substring (String.length s - String.length suffix) (String.length suffix) s)
    suffix.

Definition required_properties (instance : json) : option string :=
  match instance with
  | JObj members =>
      match members !! "email", members !! "password" with
      | None, _ => Some "'email' is a required property"
      | _, None => Some "'password' is a required property"
      | _, _ => None
      end
  | _ => Some "instance is not of type 'object'"
  end.

Definition example_env : Env :=
  {| SECRET_KEY := "secret";
     hmac_sha512_hexdigest := fun key msg => key +:+ "|" +:+ msg;
     generate_password_hash := fun salt password => "$2a$12$" +:+ salt +:+ password;
     check_password_hash := fun pw_hash password => ends_with pw_hash password;
     jsonschema_validate := fun _ _ instance => required_properties instance |}.

Definition USER_DATA : json :=
  JObj (list_to_map [("email", JStr "alice@example.com"); ("password", JStr "secret")]).

Definition example_request (user_id remember_token : option string) : Request :=
  {| mimetype := "application/json";
     request_json := USER_DATA;
     cookie_user_id := user_id;
     cookie_remember_token := remember_token;
     salt := "N9qo8uLOickgx2ZMRZoMye" |}.

Definition alice : string := "alice@example.com".

(** Alice's record as [signup] stores it for the request above. *)
Definition alice_hash : string := "$2a$12$N9qo8uLOickgx2ZMRZoMyesecret".

Definition bob : User.t := User.Build "bob@example.com" "$2a$12$eImiTXuWVxfM37uY4JANjQhunter2".





(** Signup of Alice on an empty store while a rival signs the same email
    up: the two answers the storage service gives, and the whole request. *)
Definition rival_hash : string := "$2a$12$rivalrivalrivalrivalririval".

Definition raced_lookup : HttpResponse * gmap string string :=
  raced_storage rival_hash ∅ (GetUser alice).

Definition raced_create : HttpResponse * gmap string string :=
  raced_storage rival_hash (snd raced_lookup) (PostUsers (user_details alice alice_hash)).

Definition raced_signup : Reply * gmap string string * list StorageRequest :=
  run (raced_storage rival_hash)
      (@wsgi_app example_env (@signup example_env) (example_request None None)) ∅.

(** ** Every string of a given length *)

Definition all_ascii : list ascii := map ascii_of_nat (seq 0 256).

Fixpoint all_strings (n : nat) : list string :=
  match n with
  | O => [EmptyString]
  | Datatypes.S n' => flat_map (fun c => map (String c) (all_strings n')) all_ascii
  end.

Fixpoint pad (k : nat) : string :=
  match k with
  | O => EmptyString
  | Datatypes.S k' => String "a"%char (pad k')
  end.

(** A storage service that gives one and the same answer to every call. *)
Definition constant_storage (answer : HttpResponse) : Storage unit :=
  fun s _ => (answer, s).

(** ** Configuration read when the module is imported *)

(** [s.split(sep)] for a separator of one character *)
Fixpoint split (sep : ascii) (s : string) : list string :=
  match s with
  | EmptyString => [EmptyString]
  | String c rest =>
      let fields := split sep rest in
      if Ascii.eqb c sep then EmptyString :: fields
      else match fields with
           | first :: others => String c first :: others
           | [] => [String c EmptyString]
           end
  end.

(** How the import of the module can end: with the value, or with the
    [TypeError] of adding [None] to a string, or with an [IndexError]. *)
Inductive Import (A : Type) : Type :=
| Imported (a : A)
| ImportTypeError
| ImportIndexError.
Arguments Imported {A} a.
Arguments ImportTypeError {A}.
Arguments ImportIndexError {A}.

(** [STORAGE_HOST], after the [env:] indirection; [Imported None] is
    Python's [None], which [os.environ.get] gives for a variable not set. *)
Definition STORAGE_HOST (environ : gmap string string) : Import (option string) :=
  let host := default "storage" (environ !! "STORAGE_HOST") in
  if String.prefix "env:" host then
    match split ":" host !! 1%nat with
    | Some name => Imported (environ !! name)
    | None => ImportIndexError
    end
  else Imported (Some host).

(** [STORAGE_URL]: the default is computed before the variable is looked
    up. *)
Definition STORAGE_URL (environ : gmap string string) : Import string :=
  match STORAGE_HOST environ with
  | Imported (Some host) =>
      Imported (default ("http://" +:+ host +:+ ":5001") (environ !! "STORAGE_URL"))
  | Imported None => ImportTypeError
  | ImportTypeError => ImportTypeError
  | ImportIndexError => ImportIndexError
  end.

(** ** The test client

    [app.test_client()] as the tests use it: requests are sent one after
    the other, and the cookies each reply leaves are sent with the next. *)
Fixpoint test_client `{Env} {S : Type} (serve : Storage S) (views : list (M Response))
  (rq : Request) (s : S) : list Response * S :=
  match views with
  | [] => ([], s)
  | view :: rest =>
      let '(reply, s1, _) := run serve (wsgi_app view rq) s in
      let '(responses, s2) := test_client serve rest (next_request reply rq) s1 in
      (response reply :: responses, s2)
  end.

(** ** Which storage calls a program can make *)

(** Every call the program can make, whatever storage answers, is in [P]. *)
Inductive asks {A : Type} (P : StorageRequest -> Prop) : Prog A -> Prop :=
| asks_Done (a : A) : asks P (Done a)
| asks_Ask (rq : StorageRequest) (k : HttpResponse -> Prog A) :
    P rq -> (forall response, asks P (k response)) -> asks P (Ask rq k).

Definition is_read (rq : StorageRequest) : Prop :=
  match rq with
  | GetUser _ | GetUsers => True
  | PostUsers _ | DeleteUser _ => False
  end.

(** ** Predicates used to state the properties *)

(** The request passed the two decorators of [signup] and [login], and its
    JSON body carries the two strings. *)
Definition accepted `{Env} (part : string) (rq : Request) (email password : string) : Prop :=
  mimetype rq = "application/json" /\
  jsonschema_validate "user" part (request_json rq) = None /\
  exists members,
    request_json rq = JObj members /\
    members !! "email" = Some (JStr email) /\
    members !! "password" = Some (JStr password).

(** A record that has both fields has strings in both, as the storage
    contract has it.  On such answers [str_item] reads what the indexing of
    the source reads. *)
Definition carries_strings (answer : HttpResponse) : Prop :=
  forall members e h,
    text answer = Some (JObj members) ->
    members !! "email" = Some e ->
    members !! "password_hash" = Some h ->
    (exists email, e = JStr email) /\ (exists password_hash, h = JStr password_hash).

(** Every way a program can end satisfies [Q], whatever storage answers. *)
Inductive ends {A : Type} (Q : A -> Prop) : Prog A -> Prop :=
| ends_Done (a : A) : Q a -> ends Q (Done a)
| ends_Ask (rq : StorageRequest) (k : HttpResponse -> Prog A) :
    (forall response, ends Q (k response)) -> ends Q (Ask rq k).

(** * Properties *)

Arguments jsonify : simpl never.
Arguments user_details : simpl never.

Lemma run_bind {S A B : Type} (serve : Storage S) (p : Prog A) (f : A -> Prog B) (s : S) :
  run serve (prog_bind p f) s =
  let '(a, s1, calls1) := run serve p s in
  let '(b, s2, calls2) := run serve (f a) s1 in
  (b, s2, calls1 ++ calls2).
Proof.
  revert s. induction p as [a | rq k IH]; intros s; cbn.
  - destruct (run serve (f a) s) as [[b s2] calls2]. reflexivity.
  - destruct (serve s rq) as [response s1]. rewrite IH.
    destruct (run serve (k response) s1) as [[a s2] calls1].
    destruct (run serve (f a) s2) as [[b s3] calls2]. reflexivity.
Qed.

Lemma ends_run {S A : Type} (serve : Storage S) (Q : A -> Prop) (p : Prog A) (s : S) :
  ends Q p -> Q (fst (fst (run serve p s))).
Proof.
  intros Hp. revert s. induction Hp as [a Ha | rq k _ IH]; intros s; cbn.
  - exact Ha.
  - destruct (serve s rq) as [response s1]. specialize (IH response s1).
    destruct (run serve (k response) s1) as [[a s2] calls]. exact IH.
Qed.

Lemma ends_bind {A B : Type} (Q : B -> Prop) (p : Prog A) (f : A -> Prog B) :
  ends (fun a => ends Q (f a)) p -> ends Q (prog_bind p f).
Proof.
  induction 1 as [a Ha | rq k _ IH]; cbn.
  - exact Ha.
  - constructor. exact IH.
Qed.

Lemma ends_weaken {A : Type} (P Q : A -> Prop) (p : Prog A) :
  (forall a, P a -> Q a) -> ends P p -> ends Q p.
Proof.
  intros HPQ. induction 1 as [a Ha | rq k _ IH]; constructor; auto.
Qed.

Lemma describes_user_details (email password_hash : string) :
  describes (user_details email password_hash) (User.Build email password_hash).
Proof.
  eexists. split; [reflexivity |]. split; reflexivity.
Qed.

(** Symbolic execution of a view: compute, and feed in what is known about
    the storage answers, the request and the environment. *)
Ltac exec :=
  cbn;
  repeat match goal with
         | H : ?lhs = _ |- context [?lhs] => rewrite H; cbn
         end.

Ltac open_request Hrq :=
  let members := fresh "members" in
  let Hmt := fresh "Hmt" in
  let Hschema := fresh "Hschema" in
  let Hjson := fresh "Hjson" in
  let Hemail := fresh "Hemail" in
  let Hpassword := fresh "Hpassword" in
  destruct Hrq as (Hmt & Hschema & members & Hjson & Hemail & Hpassword);
  rewrite Hjson in Hschema.

Ltac open_details Hd :=
  let members := fresh "fields" in
  let Hemail := fresh "Hfemail" in
  let Hhash := fresh "Hfhash" in
  destruct Hd as (members & -> & Hemail & Hhash); cbn in Hemail, Hhash.

(** Walk through every branch of a finite program. *)
Ltac walk_with frame :=
  repeat (cbn;
          unfold ret, raise, get_request, get_session, set_session,
            get_ctx_user, set_ctx_user;
          cbn;
          lazymatch goal with
          | |- ends _ (Ask _ _) => apply ends_Ask; intros ?
          | |- ends _ (Done _) => apply ends_Done
          | |- ends _ (prog_bind _ _) => apply ends_bind
          | |- ends _ ?p => frame p
          end).

Ltac split_cases p :=
  match p with
  | context [match ?x with _ => _ end] => destruct x eqn:?
  | context [if ?x then _ else _] => destruct x eqn:?
  end.

Ltac walk := walk_with split_cases.

(** The two loader callbacks read storage and leave the request context
    alone. *)
Lemma load_user_from_id_frame (user_id : string) (ctx : Ctx) :
  ends (fun r => snd r = ctx) (load_user_from_id user_id ctx).
Proof.
  unfold load_user_from_id, requests, json_loads, str_item, getitem. walk; reflexivity.
Qed.

Lemma scan_users_frame `{Env} (auth_token : string) (items : list json) (ctx : Ctx) :
  ends (fun r => snd r = ctx) (scan_users auth_token items ctx).
Proof.
  induction items as [| details rest IH]; [constructor; reflexivity |].
  cbn. unfold str_item, getitem. walk; solve [reflexivity | exact IH].
Qed.

Lemma load_user_from_token_frame `{Env} (auth_token : string) (ctx : Ctx) :
  ends (fun r => snd r = ctx) (load_user_from_token auth_token ctx).
Proof.
  unfold load_user_from_token, requests, json_loads, iter.
  walk; solve [reflexivity | apply scan_users_frame].
Qed.

Lemma scan_users_find `{Env} (auth_token : string) (items : list json)
  (users : list User.t) (ctx : Ctx) :
  Forall2 describes items users ->
  scan_users auth_token items ctx =
  Done (Returned (find (fun u => String.eqb (get_auth_token u) auth_token) users), ctx).
Proof.
  induction 1 as [| details user items users Hd _ IH]; [reflexivity |].
  open_details Hd. destruct user as [email password_hash]. cbn in *.
  unfold str_item, getitem. exec.
  destruct (String.eqb _ auth_token); [reflexivity | exact IH].
Qed.

(** Asking for the current user keeps the request and the pending
    remember operation, and leaves the user it returns in the context. *)
Lemma current_user_post `{Env} (ctx : Ctx) :
  ends (fun r =>
          request (snd r) = request ctx /\
          remember (session (snd r)) = remember (session ctx) /\
          forall u, fst r = Returned u -> ctx_user (snd r) = Some u)
       (current_user ctx).
Proof.
  destruct ctx as [rq [uid op] cached].
  unfold current_user, load_user, load_from_cookie, reload_user, load_user_from_token,
    load_user_from_id, requests, json_loads, iter, str_item, getitem.
  walk_with ltac:(fun p =>
    lazymatch p with
    | scan_users _ _ ?c =>
        apply (ends_weaken (fun r => snd r = c)); [| apply scan_users_frame];
        intros [? ?] ?; cbn in *; subst
    | _ => split_cases p
    end);
  repeat split; cbn; congruence.
Qed.

(** [find] returns the first element that passes the test. *)
Lemma find_first {A : Type} (test : A -> bool) (l : list A) (x : A) :
  find test l = Some x ->
  exists before after,
    l = before ++ x :: after /\ test x = true /\
    Forall (fun y => test y = false) before.
Proof.
  induction l as [| y l IH]; cbn; [discriminate |].
  destruct (test y) eqn:Hy.
  - intros [= <-]. exists [], l. repeat split; [exact Hy | constructor].
  - intros Hfind. destruct (IH Hfind) as (before & after & -> & Hx & Hbefore).
    exists (y :: before), after. repeat split; [exact Hx | constructor; assumption].
Qed.

Section Views.
Context `{Env} {S : Type} (serve : Storage S).

(** C10.  Once the lookup has found the user, the delete view answers 200
    with the email, whatever status and body the storage service returns to
    the delete call itself. *)
Theorem delete_ignores_storage_answer
  (s s1 s2 : S) (rq : Request) (email password_hash : string)
  (details : json) (answer : HttpResponse) :
  mimetype rq = "application/json" ->
  describes details (User.Build email password_hash) ->
  serve s (GetUser email) = (reply_of codes.OK details, s1) ->
  serve s1 (DeleteUser email) = (answer, s2) ->
  run serve (wsgi_app (specific_user_route email) rq) s =
  ({| response := jsonify [("email", JStr email)] codes.OK;
      new_user_id := cookie_user_id rq;
      new_remember_token := cookie_remember_token rq |},
   s2, [GetUser email; DeleteUser email]).
Proof.
  intros Hmt Hd Hget Hdel. open_details Hd.
  unfold wsgi_app, specific_user_route, consumes. exec.
  reflexivity.
Qed.

(** C1, as amended.  When the lookup finds no user, signup posts the new
    record and answers 201 with the email and the password, whatever the
    storage service returns to the create call, Conflict included. *)
Theorem signup_created_whatever_storage_answers
  (s s1 s2 : S) (rq : Request) (email password : string)
  (missing answer : HttpResponse) :
  accepted "create" rq email password ->
  serve s (GetUser email) = (missing, s1) ->
  status_code missing <> codes.OK ->
  serve s1 (PostUsers (user_details email (generate_password_hash (salt rq) password)))
    = (answer, s2) ->
  run serve (wsgi_app signup rq) s =
  ({| response := credentials email password codes.CREATED;
      new_user_id := cookie_user_id rq;
      new_remember_token := cookie_remember_token rq |},
   s2,
   [GetUser email;
    PostUsers (user_details email (generate_password_hash (salt rq) password))]).
Proof.
  intros Hrq Hget Hcode Hpost. open_request Hrq.
  apply Z.eqb_neq in Hcode.
  unfold wsgi_app, signup, consumes, validate. exec.
  reflexivity.
Qed.




(** C5.  Whatever list of user records the storage service returns,
    [load_user_from_token] returns the first user of the list, in list
    order, whose own token is the presented one, and no user when there is
    none; a request that carries only the remember-token cookie is then
    anonymous. *)
Theorem load_user_from_token_first_match
  (s s1 : S) (ctx : Ctx) (auth_token : string) (code : Z)
  (items : list json) (users : list User.t) :
  serve s GetUsers = (reply_of code (JArr items), s1) ->
  Forall2 describes items users ->
  let token_of u := String.eqb (get_auth_token u) auth_token in
  run serve (load_user_from_token auth_token ctx) s =
    ((Returned (find token_of users), ctx), s1, [GetUsers]) /\
  (forall user, find token_of users = Some user ->
     exists before after,
       users = before ++ user :: after /\
       get_auth_token user = auth_token /\
       Forall (fun other => get_auth_token other <> auth_token) before) /\
  ((forall user, In user users -> get_auth_token user <> auth_token) ->
     find token_of users = None /\
     forall rq, cookie_user_id rq = None -> cookie_remember_token rq = Some auth_token ->
       resolve serve rq s = Returned Anonymous).
Proof.
  intros Hget Hitems token_of.
  assert (Hrun : forall ctx', run serve (load_user_from_token auth_token ctx') s =
                 ((Returned (find token_of users), ctx'), s1, [GetUsers])).
  { intros ctx'. unfold load_user_from_token. exec.
    rewrite (scan_users_find auth_token items users ctx' Hitems). reflexivity. }
  split; [apply Hrun | split].
  - intros user Hfind.
    destruct (find_first _ _ _ Hfind) as (before & after & -> & Htok & Hbefore).
    exists before, after. repeat split.
    + apply String.eqb_eq. exact Htok.
    + eapply Forall_impl; [exact Hbefore |].
      intros other Hother. apply String.eqb_neq. exact Hother.
  - intros Hnone.
    assert (Hfind : find token_of users = None).
    { destruct (find token_of users) as [user |] eqn:Hfind; [| reflexivity].
      apply find_some in Hfind as [Hin Htok].
      apply String.eqb_eq in Htok. destruct (Hnone user Hin Htok). }
    split; [exact Hfind |].
    intros rq Hid Htoken. unfold resolve, current_user, start. exec.
    rewrite (scan_users_find auth_token items users _ Hitems).
    fold token_of. rewrite Hfind. reflexivity.
Qed.

(** C4.  A logout request from an anonymous client is answered 401; from an
    authenticated client it is answered 200 with an empty JSON object and
    leaves the client without session user and without remember token, so
    that the client is anonymous at any storage service afterwards and an
    immediate second logout is answered 401. *)
Theorem logout_requires_authenticated_session (s : S) (rq : Request) :
  mimetype rq = "application/json" ->
  let reply := fst (fst (run serve (wsgi_app logout rq) s)) in
  (resolve serve rq s = Returned Anonymous ->
   response reply = {| data := None; http_status := codes.UNAUTHORIZED |}) /\
  (forall email, resolve serve rq s = Returned (Authenticated email) ->
   response reply = {| data := Some (JObj ∅); http_status := codes.OK |} /\
   new_user_id reply = None /\
   new_remember_token reply = None /\
   forall (S' : Type) (serve' : Storage S') (s' : S'),
     resolve serve' (next_request reply rq) s' = Returned Anonymous /\
     response (fst (fst (run serve' (wsgi_app logout (next_request reply rq)) s')))
       = {| data := None; http_status := codes.UNAUTHORIZED |}).
Proof.
  intros Hmt reply. subst reply.
  assert (Hview : logout (start rq) =
                  prog_bind (current_user (start rq)) (fun r =>
                    match r with
                    | (Returned u, ctx1) =>
                        (if is_authenticated u then logout_body else unauthorized) ctx1
                    | (Raised e, ctx1) => Done (Raised e, ctx1)
                    end)).
  { unfold logout, consumes, login_required, bind. cbn -[current_user].
    rewrite Hmt. reflexivity. }
  unfold resolve, wsgi_app. rewrite Hview, !run_bind.
  pose proof (ends_run serve _ _ s (current_user_post (start rq))) as Hpost.
  destruct (run serve (current_user (start rq)) s) as [[[o ctx1] s1] calls1].
  cbn in Hpost. destruct Hpost as (Hrq & Hop & Hcached).
  destruct ctx1 as [rq1 [uid1 op1] cached1]. cbn in Hrq, Hop, Hcached. subst rq1 op1.
  destruct o as [[user |] | e].
  - specialize (Hcached _ eq_refl). subst cached1. split; [discriminate |].
    intros email _.
    destruct (cookie_remember_token rq) as [token |] eqn:Htoken;
      cbn; rewrite ?Htoken; cbn; rewrite ?Htoken;
      repeat split; cbn; rewrite ?Hmt; reflexivity.
  - split; [| discriminate]. intros _. reflexivity.
  - split; discriminate.
Qed.

End Views.

(** ** The views on the keyed store *)

Arguments routed_storage : simpl never.
Arguments memory_storage : simpl never.

Section OnRoutedStorage.
Context `{Env} (lookup_route delete_route : string -> option string).

Lemma routed_get_found (users : gmap string string) (text email password_hash : string) :
  lookup_route text = Some email ->
  users !! email = Some password_hash ->
  routed_storage lookup_route delete_route users (GetUser text) =
  (reply_of codes.OK (user_details email password_hash), users).
Proof.
  intros Hroute Hfound. unfold routed_storage. rewrite Hroute, Hfound. reflexivity.
Qed.

Lemma routed_get_missing (users : gmap string string) (text email : string) :
  lookup_route text = Some email ->
  users !! email = None ->
  routed_storage lookup_route delete_route users (GetUser text) =
  (reply_of codes.NOT_FOUND (JObj ∅), users).
Proof.
  intros Hroute Hmissing. unfold routed_storage. rewrite Hroute, Hmissing. reflexivity.
Qed.

Lemma routed_post_new (users : gmap string string) (email password_hash : string) :
  users !! email = None ->
  routed_storage lookup_route delete_route users
    (PostUsers (user_details email password_hash)) =
  (reply_of codes.CREATED (user_details email password_hash),
   <[email := password_hash]> users).
Proof.
  intros Hmissing. unfold routed_storage, user_details.
  change (list_to_map [("email", JStr email); ("password_hash", JStr password_hash)]
            !! "email") with (Some (JStr email)).
  change (list_to_map [("email", JStr email); ("password_hash", JStr password_hash)]
            !! "password_hash") with (Some (JStr password_hash)).
  cbn. rewrite Hmissing. reflexivity.
Qed.

Lemma routed_delete_found (users : gmap string string) (text email password_hash : string) :
  delete_route text = Some email ->
  users !! email = Some password_hash ->
  routed_storage lookup_route delete_route users (DeleteUser text) =
  (reply_of codes.OK (JObj ∅), delete email users).
Proof.
  intros Hroute Hfound. unfold routed_storage. rewrite Hroute, Hfound. reflexivity.
Qed.

Lemma load_user_from_id_found (users : gmap string string)
  (text email password_hash : string) (ctx : Ctx) :
  lookup_route text = Some email ->
  users !! email = Some password_hash ->
  run (routed_storage lookup_route delete_route) (load_user_from_id text ctx) users =
  ((Returned (Some (User.Build email password_hash)), ctx), users, [GetUser text]).
Proof.
  intros Hroute Hfound. unfold load_user_from_id. cbn.
  rewrite (routed_get_found users text email password_hash Hroute Hfound). reflexivity.
Qed.

Lemma load_user_from_id_missing (users : gmap string string) (text email : string)
  (ctx : Ctx) :
  lookup_route text = Some email ->
  users !! email = None ->
  run (routed_storage lookup_route delete_route) (load_user_from_id text ctx) users =
  ((Returned None, ctx), users, [GetUser text]).
Proof.
  intros Hroute Hmissing. unfold load_user_from_id. cbn.
  rewrite (routed_get_missing users text email Hroute Hmissing). reflexivity.
Qed.



End OnRoutedStorage.

(** ** The remember token *)

Lemma all_ascii_complete (c : ascii) : In c all_ascii.
Proof.
  unfold all_ascii. apply in_map_iff. exists (nat_of_ascii c). split.
  - apply ascii_nat_embedding.
  - apply in_seq. pose proof (nat_ascii_bounded c). lia.
Qed.

Lemma all_strings_complete (s : string) : In s (all_strings (String.length s)).
Proof.
  induction s as [| c s IH].
  - left. reflexivity.
  - cbn [String.length all_strings]. apply in_flat_map. exists c. split.
    + apply all_ascii_complete.
    + apply in_map. exact IH.
Qed.

Lemma length_pad (k : nat) : String.length (pad k) = k.
Proof. induction k; cbn; congruence. Qed.

(** Strings of one length are finitely many, strings are not: a function
    into the former cannot keep all of the latter apart. *)
Lemma fixed_length_collides (f : string -> string) (n : nat) :
  (forall x, String.length (f x) = n) ->
  ~ (forall x y, x <> y -> f x <> f y).
Proof.
  intros Hlen Hsep.
  assert (Hinj : Inj (=) (=) f).
  { intros x y Hxy. destruct (decide (x = y)) as [| Hne]; [assumption |].
    destruct (Hsep x y Hne Hxy). }
  assert (Hpad : Inj (=) (=) pad).
  { intros j k Hjk. rewrite <- (length_pad j), <- (length_pad k), Hjk. reflexivity. }
  set (inputs := pad <$> seq 0 (Datatypes.S (length (all_strings n)))).
  assert (Hnodup : NoDup (f <$> inputs)).
  { apply NoDup_fmap_2; [exact Hinj |]. apply NoDup_fmap_2; [exact Hpad |]. apply NoDup_seq. }
  assert (Hsub : f <$> inputs ⊆+ all_strings n).
  { apply NoDup_submseteq; [exact Hnodup |]. intros y Hy.
    apply list_elem_of_fmap in Hy as (x & -> & _).
    apply list_elem_of_In. rewrite <- (Hlen x). apply all_strings_complete. }
  apply submseteq_length in Hsub.
  unfold inputs in Hsub. rewrite !length_fmap, length_seq in Hsub. lia.
Qed.

(** That two distinct password hashes of a user give two distinct tokens is
    a matter of chance, not a law: no message authentication code whose
    tags have the 128 characters of a SHA-512 hex digest can keep every two
    hashes of an email apart.  No pair of colliding hashes is known. *)
Remark distinct_hashes_can_share_a_token :
  ~ exists E : Env,
      (forall key msg, String.length (@hmac_sha512_hexdigest E key msg) = 128) /\
      (forall email h1 h2, h1 <> h2 ->
         @get_auth_token E (User.Build email h1) <> @get_auth_token E (User.Build email h2)).
Proof.
  intros (E & Hlen & Hsep).
  apply (fixed_length_collides (fun h => @get_auth_token E (User.Build EmptyString h)) 128).
  - intros h. apply Hlen.
  - intros h1 h2. apply Hsep.
Qed.

(** ** The race between two signups *)

(** C1, counterexample.  The lookup finds no user, the rival's signup lands,
    the storage service answers Conflict to the create call, and signup
    still answers 201 Created; the record kept is the rival's. *)
Lemma signup_created_despite_storage_conflict :
  status_code (fst raced_lookup) = codes.NOT_FOUND /\
  status_code (fst raced_create) = codes.CONFLICT /\
  snd raced_signup = [GetUser alice; PostUsers (user_details alice alice_hash)] /\
  snd (fst raced_signup) = snd raced_create /\
  snd raced_create !! alice = Some rival_hash /\
  http_status (response (fst (fst raced_signup))) = codes.CREATED /\
  http_status (response (fst (fst raced_signup))) <> codes.CONFLICT.
Proof.
  vm_compute. repeat split; discriminate.
Qed.

(** ** The properties at work on the example request *)

Lemma example_request_accepted (part : string) (user_id remember_token : option string) :
  @accepted example_env part (example_request user_id remember_token) alice "secret".
Proof.
  split; [reflexivity |]. split; [reflexivity |].
  exists (list_to_map [("email", JStr alice); ("password", JStr "secret")]).
  repeat split; reflexivity.
Qed.

Lemma signup_created_whatever_storage_answers_witness :
  raced_signup =
  ({| response := credentials alice "secret" codes.CREATED;
      new_user_id := None;
      new_remember_token := None |},
   snd raced_create,
   [GetUser alice; PostUsers (user_details alice alice_hash)]).
Proof.
  apply (@signup_created_whatever_storage_answers example_env _
           (raced_storage rival_hash) ∅ (snd raced_lookup) (snd raced_create)
           (example_request None None) alice "secret"
           (fst raced_lookup) (fst raced_create)).
  - apply example_request_accepted.
  - reflexivity.
  - vm_compute. discriminate.
  - reflexivity.
Defined.

Lemma delete_ignores_storage_answer_witness :
  run unavailable_delete_storage
      (@wsgi_app example_env (specific_user_route alice) (example_request None None))
      {[alice := alice_hash]} =
  ({| response := jsonify [("email", JStr alice)] codes.OK;
      new_user_id := None;
      new_remember_token := None |},
   {[alice := alice_hash]},
   [GetUser alice; DeleteUser alice]).
Proof.
  apply (@delete_ignores_storage_answer example_env _ unavailable_delete_storage
           {[alice := alice_hash]} {[alice := alice_hash]} {[alice := alice_hash]}
           (example_request None None) alice alice_hash
           (user_details alice alice_hash) {| status_code := 503; text := None |}).
  - reflexivity.
  - apply describes_user_details.
  - reflexivity.
  - reflexivity.
Defined.




Lemma load_user_from_token_first_match_witness :
  run memory_storage
      (@load_user_from_token example_env (@get_auth_token example_env bob)
         (start (example_request None None)))
      {[alice := alice_hash; User.email bob := User.password_hash bob]} =
  ((Returned (Some bob), start (example_request None None)),
   {[alice := alice_hash; User.email bob := User.password_hash bob]},
   [GetUsers]).
Proof.
  apply (@load_user_from_token_first_match example_env _ memory_storage
           {[alice := alice_hash; User.email bob := User.password_hash bob]}
           {[alice := alice_hash; User.email bob := User.password_hash bob]}
           (start (example_request None None))
           (@get_auth_token example_env bob) codes.OK
           [user_details alice alice_hash;
            user_details (User.email bob) (User.password_hash bob)]
           [User.Build alice alice_hash; bob]).
  - reflexivity.
  - repeat constructor; apply describes_user_details.
Defined.

Lemma logout_requires_authenticated_session_witness :
  let rq := example_request (Some alice) (Some "secret|alice@example.com") in
  let reply :=
    fst (fst (run memory_storage (@wsgi_app example_env (@logout example_env) rq)
                {[alice := alice_hash]})) in
  response reply = {| data := Some (JObj ∅); http_status := codes.OK |} /\
  new_user_id reply = None /\
  new_remember_token reply = None /\
  response
    (fst (fst (run memory_storage
                 (@wsgi_app example_env (@logout example_env) (next_request reply rq))
                 {[alice := alice_hash]})))
    = {| data := None; http_status := codes.UNAUTHORIZED |}.
Proof.
  intros rq reply.
  destruct (@logout_requires_authenticated_session example_env _ memory_storage
              {[alice := alice_hash]} rq eq_refl) as [_ Hauthenticated].
  destruct (Hauthenticated alice eq_refl) as (Hresponse & Hid & Htoken & Hnext).
  split; [exact Hresponse |]. split; [exact Hid |]. split; [exact Htoken |].
  apply (Hnext _ memory_storage {[alice := alice_hash]}).
Defined.





(** * Further properties of the code *)

(** ** Requests the decorators turn away *)

Section Decorators.
Context `{Env} {S : Type} (serve : Storage S).

(** X1.  A request whose content type is not JSON is answered 415 by every
    view, before the schema, the session or the storage service is looked
    at: no storage call is made and the cookies stay as they were. *)
Theorem unsupported_media_type_first (s : S) (rq : Request) (email : string) :
  mimetype rq <> "application/json" ->
  let refused :=
    ({| response := {| data := None; http_status := codes.UNSUPPORTED_MEDIA_TYPE |};
        new_user_id := cookie_user_id rq;
        new_remember_token := cookie_remember_token rq |}, s, @nil StorageRequest) in
  run serve (wsgi_app signup rq) s = refused /\
  run serve (wsgi_app login rq) s = refused /\
  run serve (wsgi_app logout rq) s = refused /\
  run serve (wsgi_app (specific_user_route email) rq) s = refused /\
  run serve (wsgi_app status rq) s = refused.
Proof.
  intros Hmt refused. apply String.eqb_neq in Hmt.
  unfold wsgi_app, signup, login, logout, specific_user_route, status, consumes.
  cbn. rewrite Hmt. cbn. repeat split; reflexivity.
Qed.

(** X2.  A JSON request that the schema rejects is answered 400 by signup
    and by login, with the title of the error handler and the validation
    message, cleaned by [replace_u_quote], as detail; no storage call is
    made and the cookies stay as they were. *)
Theorem validation_error_before_storage (s : S) (rq : Request) (message : string) :
  mimetype rq = "application/json" ->
  let refused :=
    ({| response :=
          jsonify
            [("title", JStr "There was an error validating the given arguments.");
             ("detail", JStr (replace_u_quote message))]
            codes.BAD_REQUEST;
        new_user_id := cookie_user_id rq;
        new_remember_token := cookie_remember_token rq |}, s, @nil StorageRequest) in
  (jsonschema_validate "user" "create" (request_json rq) = Some message ->
   run serve (wsgi_app signup rq) s = refused) /\
  (jsonschema_validate "user" "get" (request_json rq) = Some message ->
   run serve (wsgi_app login rq) s = refused).
Proof.
  intros Hmt refused. split; intros Hschema;
    unfold wsgi_app, signup, login, consumes, validate; exec; reflexivity.
Qed.

End Decorators.

Lemma unsupported_media_type_first_witness :
  run memory_storage
      (@wsgi_app example_env (@logout example_env)
         {| mimetype := "text/html"; request_json := JNull;
            cookie_user_id := Some alice; cookie_remember_token := None;
            salt := EmptyString |})
      {[alice := alice_hash]} =
  ({| response := {| data := None; http_status := codes.UNSUPPORTED_MEDIA_TYPE |};
      new_user_id := Some alice;
      new_remember_token := None |}, {[alice := alice_hash]}, []).
Proof.
  assert (Hmt : "text/html" <> "application/json") by discriminate.
  apply (@unsupported_media_type_first example_env _ memory_storage
           {[alice := alice_hash]}
           {| mimetype := "text/html"; request_json := JNull;
              cookie_user_id := Some alice; cookie_remember_token := None;
              salt := EmptyString |} alice Hmt).
Defined.

Lemma validation_error_before_storage_witness :
  let rq := {| mimetype := "application/json";
               request_json := JObj {["password" := JStr "secret"]};
               cookie_user_id := None; cookie_remember_token := None;
               salt := EmptyString |} in
  run memory_storage (@wsgi_app example_env (@signup example_env) rq) ∅ =
  ({| response :=
        jsonify
          [("title", JStr "There was an error validating the given arguments.");
           ("detail", JStr "'email' is a required property")]
          codes.BAD_REQUEST;
      new_user_id := None;
      new_remember_token := None |}, ∅, []).
Proof.
  intros rq.
  apply (proj1 (@validation_error_before_storage example_env _ memory_storage ∅ rq
                  "'email' is a required property" eq_refl)).
  reflexivity.
Defined.

(** ** The detail of a validation error *)

Lemma replace_u_quote_cons (c : ascii) (r : string) :
  replace_u_quote (String c r) =
  match r with
  | String d r' =>
      if (Ascii.eqb c "u" && Ascii.eqb d "'")%bool
      then String "'" (replace_u_quote r')
      else String c (replace_u_quote r)
  | EmptyString => String c EmptyString
  end.
Proof.
  destruct c as [[] [] [] [] [] [] [] []];
    (destruct r as [| d r']; [reflexivity |]); try reflexivity.
  destruct d as [[] [] [] [] [] [] [] []]; reflexivity.
Qed.

Lemma replace_u_quote_app_aux (n : nat) (a b : string) :
  String.length a <= n ->
  replace_u_quote (a +:+ String "u" (String "'" b))
  = replace_u_quote a +:+ String "'" (replace_u_quote b).
Proof.
  revert a. induction n as [| n IH]; intros a Hlen.
  - destruct a; [reflexivity | cbn in Hlen; lia].
  - destruct a as [| c a]; [reflexivity |].
    cbn [String.length] in Hlen.
    change (String c a +:+ String "u" (String "'" b))
      with (String c (a +:+ String "u" (String "'" b))).
    rewrite (replace_u_quote_cons c (a +:+ _)), (replace_u_quote_cons c a).
    destruct a as [| d a].
    + change (EmptyString +:+ String "u" (String "'" b))
        with (String "u" (String "'" b)).
      cbv iota. change (Ascii.eqb "u" "'") with false. rewrite andb_false_r.
      reflexivity.
    + change (String d a +:+ String "u" (String "'" b))
        with (String d (a +:+ String "u" (String "'" b))).
      cbv beta iota.
      destruct (Ascii.eqb c "u" && Ascii.eqb d "'")%bool.
      * rewrite (IH a) by (cbn in Hlen; lia). reflexivity.
      * change (String d (a +:+ String "u" (String "'" b)))
          with (String d a +:+ String "u" (String "'" b)).
        rewrite (IH (String d a)) by (cbn in *; lia). reflexivity.
Qed.

(** X3.  The detail of a validation error is the message with every [u]
    that stands before a quote removed, wherever it stands: the pieces
    around an occurrence are cleaned on their own.  A message without the
    letter [u] is kept as it is. *)
Theorem replace_u_quote_removes_each_u_quote (a b : string) :
  replace_u_quote (a +:+ "u'" +:+ b) = replace_u_quote a +:+ "'" +:+ replace_u_quote b /\
  ((forall c, In c (list_ascii_of_string a) -> c <> "u"%char) -> replace_u_quote a = a).
Proof.
  split.
  - apply (replace_u_quote_app_aux (String.length a)). lia.
  - induction a as [| c a IH]; [reflexivity |].
    intros Hno. rewrite replace_u_quote_cons.
    assert (Hc : Ascii.eqb c "u" = false).
    { apply Ascii.eqb_neq. apply Hno. left. reflexivity. }
    rewrite Hc. cbn [andb].
    assert (Ha : replace_u_quote a = a).
    { apply IH. intros c' Hin. apply Hno. right. exact Hin. }
    destruct a; [reflexivity |]. rewrite Ha. reflexivity.
Qed.

(** ** The storage URL *)

Lemma split_cons_other (sep c : ascii) (s : string) :
  c <> sep ->
  split sep (String c s) =
  match split sep s with
  | first :: others => String c first :: others
  | [] => [String c EmptyString]
  end.
Proof. intros Hc. apply Ascii.eqb_neq in Hc. cbn. rewrite Hc. reflexivity. Qed.

Lemma split_field (sep : ascii) (a b : string) :
  (forall c, In c (list_ascii_of_string a) -> c <> sep) ->
  split sep (a +:+ String sep b) = a :: split sep b.
Proof.
  induction a as [| c a IH]; intros Hno.
  - change (EmptyString +:+ String sep b) with (String sep b).
    cbn. rewrite Ascii.eqb_refl. reflexivity.
  - change (String c a +:+ String sep b) with (String c (a +:+ String sep b)).
    rewrite split_cons_other by (apply Hno; left; reflexivity).
    rewrite IH by (intros c' Hin; apply Hno; right; exact Hin).
    reflexivity.
Qed.

Lemma split_whole (sep : ascii) (a : string) :
  (forall c, In c (list_ascii_of_string a) -> c <> sep) ->
  split sep a = [a].
Proof.
  induction a as [| c a IH]; intros Hno; [reflexivity |].
  rewrite split_cons_other by (apply Hno; left; reflexivity).
  rewrite IH by (intros c' Hin; apply Hno; right; exact Hin).
  reflexivity.
Qed.

Lemma prefix_env (host : string) :
  String.prefix "env:" host = true -> exists tail, host = "env:" +:+ tail.
Proof.
  intros Hprefix. apply prefix_correct in Hprefix.
  destruct host as [| c1 [| c2 [| c3 [| c4 tail]]]]; cbn in Hprefix; try discriminate.
  exists tail. destruct tail; injection Hprefix as -> -> -> ->; reflexivity.
Qed.

(** X4.  When [STORAGE_HOST] is [env:NAME], the storage host is the value
    of the variable [NAME], where [NAME] ends at the next colon, if any.  If
    that variable is not set the import fails with a [TypeError], also when
    [STORAGE_URL] is set, because the default URL is built first; otherwise
    [STORAGE_URL] wins over the URL built from the host.  Reading the name
    after the colon never fails. *)
Theorem storage_host_indirection (environ : gmap string string) (name rest : string) :
  environ !! "STORAGE_HOST" = Some ("env:" +:+ name +:+ rest) ->
  (forall c, In c (list_ascii_of_string name) -> c <> ":"%char) ->
  (rest = EmptyString \/ exists tail, rest = String ":" tail) ->
  STORAGE_HOST environ = Imported (environ !! name) /\
  (environ !! name = None -> STORAGE_URL environ = ImportTypeError) /\
  (forall host, environ !! name = Some host ->
     STORAGE_URL environ
     = Imported (default ("http://" +:+ host +:+ ":5001") (environ !! "STORAGE_URL"))) /\
  (forall any : gmap string string, STORAGE_HOST any <> ImportIndexError).
Proof.
  intros Hhost Hname Hrest.
  assert (Hsplit : split ":" ("env:" +:+ name +:+ rest) !! 1%nat = Some name).
  { change ("env:" +:+ name +:+ rest) with ("env" +:+ String ":" (name +:+ rest)).
    rewrite split_field by (cbn; intros c [<- | [<- | [<- | []]]]; discriminate).
    cbn. destruct Hrest as [-> | [tail ->]].
    - assert (Hid : name +:+ EmptyString = name).
      { clear. induction name as [| c name IH]; [reflexivity |].
        change (String c name +:+ EmptyString) with (String c (name +:+ EmptyString)).
        rewrite IH. reflexivity. }
      rewrite Hid, split_whole by exact Hname. reflexivity.
    - rewrite split_field by exact Hname. reflexivity. }
  assert (Hresolved : STORAGE_HOST environ = Imported (environ !! name)).
  { unfold STORAGE_HOST. rewrite Hhost. cbv [from_option id].
    assert (Hprefix : String.prefix "env:" ("env:" +:+ name +:+ rest) = true).
    { generalize (name +:+ rest). intros tail. destruct tail; reflexivity. }
    rewrite Hprefix, Hsplit. reflexivity. }
  split; [exact Hresolved |]. split; [| split].
  - intros Hunset. unfold STORAGE_URL. rewrite Hresolved, Hunset. reflexivity.
  - intros host Hset. unfold STORAGE_URL. rewrite Hresolved, Hset. reflexivity.
  - intros any. unfold STORAGE_HOST.
    destruct (String.prefix "env:" (default "storage" (any !! "STORAGE_HOST"))) eqn:Hprefix;
      [| discriminate].
    destruct (prefix_env _ Hprefix) as [tail ->].
    change ("env:" +:+ tail) with ("env" +:+ String ":" tail).
    rewrite split_field by (cbn; intros c [<- | [<- | [<- | []]]]; discriminate).
    cbn. destruct (split ":" tail) eqn:Hfields; [| discriminate].
    destruct tail; cbn in Hfields; [discriminate |].
    destruct (Ascii.eqb a ":"); [discriminate |].
    destruct (split ":" tail); discriminate.
Qed.

Lemma storage_host_indirection_witness :
  STORAGE_URL {["STORAGE_HOST" := "env:STORAGE_PORT_5001_TCP_ADDR:x";
                "STORAGE_URL" := "http://localhost:5001"]}
  = ImportTypeError /\
  STORAGE_URL {["STORAGE_HOST" := "env:STORAGE_PORT_5001_TCP_ADDR";
                "STORAGE_PORT_5001_TCP_ADDR" := "172.17.0.2"]}
  = Imported "http://172.17.0.2:5001".
Proof.
  assert (Hname : forall c, In c (list_ascii_of_string "STORAGE_PORT_5001_TCP_ADDR")
                            -> c <> ":"%char).
  { intros c Hin. cbn in Hin.
    repeat (destruct Hin as [<- | Hin]; [discriminate |]). destruct Hin. }
  split.
  - assert (Hhost : ({["STORAGE_HOST" := "env:STORAGE_PORT_5001_TCP_ADDR:x";
                       "STORAGE_URL" := "http://localhost:5001"]} : gmap string string)
                    !! "STORAGE_HOST"
                    = Some ("env:" +:+ "STORAGE_PORT_5001_TCP_ADDR" +:+ ":x"))
      by reflexivity.
    destruct (storage_host_indirection
                {["STORAGE_HOST" := "env:STORAGE_PORT_5001_TCP_ADDR:x";
                  "STORAGE_URL" := "http://localhost:5001"]}
                "STORAGE_PORT_5001_TCP_ADDR" ":x" Hhost Hname
                (or_intror (ex_intro _ "x" eq_refl))) as (_ & Hunset & _).
    apply Hunset. reflexivity.
  - assert (Hhost : ({["STORAGE_HOST" := "env:STORAGE_PORT_5001_TCP_ADDR";
                       "STORAGE_PORT_5001_TCP_ADDR" := "172.17.0.2"]}
                     : gmap string string) !! "STORAGE_HOST"
                    = Some ("env:" +:+ "STORAGE_PORT_5001_TCP_ADDR" +:+ EmptyString))
      by reflexivity.
    destruct (storage_host_indirection
                {["STORAGE_HOST" := "env:STORAGE_PORT_5001_TCP_ADDR";
                  "STORAGE_PORT_5001_TCP_ADDR" := "172.17.0.2"]}
                "STORAGE_PORT_5001_TCP_ADDR" EmptyString Hhost Hname
                (or_introl eq_refl)) as (_ & _ & Hset & _).
    apply (Hset "172.17.0.2"). reflexivity.
Defined.

(** ** The loader callbacks on any answer *)

Lemma scan_users_app `{Env} (auth_token : string) (items rest : list json)
  (users : list User.t) (ctx : Ctx) :
  Forall2 describes items users ->
  scan_users auth_token (items ++ rest) ctx =
  match find (fun u => String.eqb (get_auth_token u) auth_token) users with
  | Some user => Done (Returned (Some user), ctx)
  | None => scan_users auth_token rest ctx
  end.
Proof.
  induction 1 as [| details user items users Hd _ IH]; [reflexivity |].
  open_details Hd. destruct user as [email password_hash]. cbn in *.
  unfold str_item, getitem. exec.
  destruct (String.eqb _ auth_token); [reflexivity | exact IH].
Qed.

Section Loaders.
Context `{Env} {S : Type} (serve : Storage S).

(** X5.  [load_user_from_id] makes the one lookup call and leaves the
    request context alone.  Any status other than 200 gives no user without
    the body being decoded; with status 200 a body that is not JSON raises
    [ValueError], a record without [email] or without [password_hash]
    raises the [KeyError] of that key, and a full record gives the user. *)
Theorem load_user_from_id_answers
  (s s1 : S) (ctx : Ctx) (user_id : string) (answer : HttpResponse) :
  serve s (GetUser user_id) = (answer, s1) ->
  exists outcome,
    run serve (load_user_from_id user_id ctx) s = ((outcome, ctx), s1, [GetUser user_id]) /\
    (status_code answer <> codes.OK -> outcome = Returned None) /\
    (status_code answer = codes.OK ->
     (text answer = None -> outcome = Raised ValueError) /\
     (forall members, text answer = Some (JObj members) ->
        (members !! "email" = None -> outcome = Raised (KeyError "email")) /\
        (forall email, members !! "email" = Some (JStr email) ->
           members !! "password_hash" = None ->
           outcome = Raised (KeyError "password_hash")) /\
        (forall email password_hash,
           members !! "email" = Some (JStr email) ->
           members !! "password_hash" = Some (JStr password_hash) ->
           outcome = Returned (Some (User.Build email password_hash))))).
Proof.
  intros Hget. destruct answer as [code body]. cbn.
  unfold load_user_from_id. cbn. rewrite Hget. cbn.
  destruct (Z.eqb_spec code codes.OK) as [-> | Hcode].
  - destruct body as [details |]; cbn.
    + destruct details as [| | | | | members]; cbn;
        try (eexists; split; [reflexivity |];
             split; [intros Hne; destruct Hne; reflexivity |];
             intros _; split; [discriminate | intros members' [=]]).
      destruct (members !! "email") as [[| | | email | |] |] eqn:Hemail; cbn;
        try (eexists; split; [reflexivity |];
             split; [intros Hne; destruct Hne; reflexivity |];
             intros _; split; [discriminate |];
             intros members' [= <-]; rewrite Hemail;
             repeat split; intros; discriminate).
      destruct (members !! "password_hash") as [[| | | password_hash | |] |] eqn:Hhash; cbn;
        (eexists; split; [reflexivity |];
         split; [intros Hne; destruct Hne; reflexivity |];
         intros _; split; [discriminate |];
         intros members' [= <-]; rewrite Hemail, Hhash;
         repeat split; intros; try discriminate; congruence).
    + eexists. split; [reflexivity |].
      split; [intros Hne; destruct Hne; reflexivity |].
      intros _. split; [reflexivity | intros members [=]].
  - eexists. split; [reflexivity |]. split; [reflexivity |].
    intros Heq. destruct (Hcode Heq).
Qed.

(** X6.  [load_user_from_token] returns at the first record whose token
    matches: what the list holds after it is never read, however malformed.
    A record without [email] that stands before any match raises
    [KeyError] instead. *)
Theorem load_user_from_token_stops_at_first_match
  (s s1 : S) (ctx : Ctx) (auth_token : string) (code : Z)
  (items rest : list json) (users : list User.t) :
  Forall2 describes items users ->
  let token_of u := String.eqb (get_auth_token u) auth_token in
  (forall user, find token_of users = Some user ->
     serve s GetUsers = (reply_of code (JArr (items ++ rest)), s1) ->
     run serve (load_user_from_token auth_token ctx) s =
     ((Returned (Some user), ctx), s1, [GetUsers])) /\
  (forall members, find token_of users = None ->
     members !! "email" = None ->
     serve s GetUsers = (reply_of code (JArr (items ++ JObj members :: rest)), s1) ->
     run serve (load_user_from_token auth_token ctx) s =
     ((Raised (KeyError "email"), ctx), s1, [GetUsers])).
Proof.
  intros Hitems token_of. split.
  - intros user Hfind Hget. unfold load_user_from_token. exec.
    rewrite (scan_users_app auth_token items rest users ctx Hitems).
    fold token_of. rewrite Hfind. reflexivity.
  - intros members Hfind Hemail Hget. unfold load_user_from_token. exec.
    rewrite (scan_users_app auth_token items _ users ctx Hitems).
    fold token_of. rewrite Hfind. cbn. unfold str_item, getitem. exec. reflexivity.
Qed.

(** X7.  The answer to the list call is iterated as Python iterates it: an
    empty list, an empty object and an empty string all give no user; null,
    a number and a boolean raise [TypeError]; a body that is not JSON raises
    [ValueError].  The status code of the answer plays no part. *)
Theorem load_user_from_token_on_other_bodies
  (s s1 : S) (ctx : Ctx) (auth_token : string) (code : Z) (body : option json) :
  serve s GetUsers = ({| status_code := code; text := body |}, s1) ->
  let gives outcome :=
    run serve (load_user_from_token auth_token ctx) s = ((outcome, ctx), s1, [GetUsers]) in
  (body = Some (JArr []) \/ body = Some (JObj ∅) \/ body = Some (JStr EmptyString) ->
   gives (Returned None)) /\
  (body = Some JNull \/ (exists n, body = Some (JNum n)) \/
   (exists b, body = Some (JBool b)) -> gives (Raised TypeError)) /\
  (body = None -> gives (Raised ValueError)).
Proof.
  intros Hget gives. subst gives. cbv beta.
  unfold load_user_from_token. cbn. rewrite Hget. cbn.
  split; [| split].
  - intros [-> | [-> | ->]]; reflexivity.
  - intros [-> | [[n ->] | [b ->]]]; reflexivity.
  - intros ->. reflexivity.
Qed.

(** X8.  The token of a listed user finds a user again: when the list the
    storage service returns holds the record of a user, presenting that
    user's token to [load_user_from_token] returns a user of the list with
    that very token. *)
Theorem load_user_from_token_finds_listed_user
  (s s1 : S) (ctx : Ctx) (code : Z) (items : list json) (users : list User.t)
  (listed : User.t) :
  serve s GetUsers = (reply_of code (JArr items), s1) ->
  Forall2 describes items users ->
  In listed users ->
  exists user,
    run serve (load_user_from_token (get_auth_token listed) ctx) s
    = ((Returned (Some user), ctx), s1, [GetUsers]) /\
    get_auth_token user = get_auth_token listed /\
    In user users.
Proof.
  intros Hget Hitems Hin.
  destruct (find (fun u => String.eqb (get_auth_token u) (get_auth_token listed)) users)
    as [user |] eqn:Hfind.
  - exists user. apply find_some in Hfind as Hsome. destruct Hsome as [Huser Htoken].
    split; [| split; [apply String.eqb_eq; exact Htoken | exact Huser]].
    unfold load_user_from_token. exec.
    rewrite (scan_users_find _ items users ctx Hitems), Hfind. reflexivity.
  - pose proof (find_none _ _ Hfind _ Hin) as Hno. cbn in Hno.
    rewrite String.eqb_refl in Hno. discriminate.
Qed.

End Loaders.

(** ** What the views do for every storage service *)

Section EveryStorage.
Context `{Env} {S : Type} (serve : Storage S).

(** X9.  Whatever the storage service answers to the lookup, as long as a
    record with both fields has strings in both, login makes the one lookup
    call and either answers 200, in which case the lookup returned a user
    record whose hash the password verifies against, and the session and
    the remember token are those of that record, or answers another status
    and leaves both cookies as they were. *)
Theorem login_sets_cookies_only_for_verified_password
  (s : S) (rq : Request) (email password : string) :
  accepted "get" rq email password ->
  carries_strings (fst (serve s (GetUser email))) ->
  let reply := fst (fst (run serve (wsgi_app login rq) s)) in
  snd (run serve (wsgi_app login rq) s) = [GetUser email] /\
  ((http_status (response reply) = codes.OK /\
    exists user details,
      fst (serve s (GetUser email)) = reply_of codes.OK details /\
      describes details user /\
      check_password_hash (User.password_hash user) password = true /\
      new_user_id reply = Some (User.email user) /\
      new_remember_token reply = Some (get_auth_token user)) \/
   (http_status (response reply) <> codes.OK /\
    new_user_id reply = cookie_user_id rq /\
    new_remember_token reply = cookie_remember_token rq)).
Proof.
  intros Hrq _ reply. subst reply. open_request Hrq.
  destruct (serve s (GetUser email)) as [[code body] s1] eqn:Hget.
  unfold wsgi_app, login, consumes, validate. exec.
  destruct (Z.eqb_spec code codes.OK) as [-> | Hcode]; cbn;
    [| split; [reflexivity | right; repeat split; discriminate]].
  destruct body as [[| | | | | fields] |]; cbn;
    try (split; [reflexivity | right; repeat split; discriminate]).
  destruct (fields !! "email") as [[| | | stored_email | |] |] eqn:Hfemail; cbn;
    try (split; [reflexivity | right; repeat split; discriminate]).
  destruct (fields !! "password_hash") as [[| | | stored_hash | |] |] eqn:Hfhash; cbn;
    try (split; [reflexivity | right; repeat split; discriminate]).
  destruct (check_password_hash stored_hash password) eqn:Hcheck; cbn;
    [| split; [reflexivity | right; repeat split; discriminate]].
  split; [reflexivity |]. left. split; [reflexivity |].
  exists (User.Build stored_email stored_hash), (JObj fields).
  split; [reflexivity |]. split.
  - exists fields. repeat split; assumption.
  - split; [exact Hcheck |]. split; reflexivity.
Qed.

(** X10.  The status view answers 200 with the session state of the
    request: [is_authenticated] false for an anonymous client,
    [is_authenticated] true and the email for an authenticated one.  It
    never touches the remember token. *)
Theorem status_reflects_session (s : S) (rq : Request) :
  mimetype rq = "application/json" ->
  let reply := fst (fst (run serve (wsgi_app status rq) s)) in
  new_remember_token reply = cookie_remember_token rq /\
  (resolve serve rq s = Returned Anonymous ->
   response reply = jsonify [("is_authenticated", JBool false)] codes.OK) /\
  (forall email, resolve serve rq s = Returned (Authenticated email) ->
   response reply
   = jsonify [("is_authenticated", JBool true); ("email", JStr email)] codes.OK).
Proof.
  intros Hmt reply. subst reply.
  assert (Hview : status (start rq) =
                  prog_bind (current_user (start rq)) (fun r =>
                    match r with
                    | (Returned u, ctx1) =>
                        match u with
                        | Some user =>
                            ret (jsonify [("is_authenticated", JBool true);
                                          ("email", JStr (User.email user))] codes.OK)
                        | None => ret (jsonify [("is_authenticated", JBool false)] codes.OK)
                        end ctx1
                    | (Raised e, ctx1) => Done (Raised e, ctx1)
                    end)).
  { unfold status, consumes, status_body, bind. cbn -[current_user].
    rewrite Hmt. reflexivity. }
  unfold resolve, wsgi_app. rewrite Hview, !run_bind.
  pose proof (ends_run serve _ _ s (current_user_post (start rq))) as Hpost.
  destruct (run serve (current_user (start rq)) s) as [[[o ctx1] s1] calls1].
  cbn in Hpost. destruct Hpost as (Hrq & Hop & Hcached).
  destruct ctx1 as [rq1 [uid1 op1] cached1]. cbn in Hrq, Hop, Hcached. subst rq1 op1.
  destruct o as [[user |] | e]; cbn.
  - split; [reflexivity |]. split; [discriminate |].
    intros email [= <-]. reflexivity.
  - split; [reflexivity |]. split; [reflexivity | discriminate].
  - destruct (handle_user_exception e); cbn;
      (split; [reflexivity |]; split; discriminate).
Qed.

End EveryStorage.

(** ** Which storage calls the views can make *)

Lemma asks_bind {A B : Type} (P : StorageRequest -> Prop) (p : Prog A) (f : A -> Prog B) :
  asks P p -> (forall a, asks P (f a)) -> asks P (prog_bind p f).
Proof.
  intros Hp Hf. induction Hp as [a | rq k Hrq _ IH]; cbn.
  - apply Hf.
  - constructor; [exact Hrq | exact IH].
Qed.

Lemma asks_run {S A : Type} (serve : Storage S) (P : StorageRequest -> Prop)
  (p : Prog A) (s : S) :
  asks P p -> Forall P (snd (run serve p s)).
Proof.
  intros Hp. revert s. induction Hp as [a | rq k Hrq _ IH]; intros s; cbn.
  - constructor.
  - destruct (serve s rq) as [response s1]. specialize (IH response s1).
    destruct (run serve (k response) s1) as [[a s2] calls]. constructor; assumption.
Qed.

Ltac tour_with special :=
  repeat (cbn;
          unfold ret, raise, get_request, get_session, set_session,
            get_ctx_user, set_ctx_user;
          cbn;
          lazymatch goal with
          | |- asks _ (Ask _ _) => apply asks_Ask; [exact I | intros ?]
          | |- asks _ (Done _) => apply asks_Done
          | |- asks _ ?p => first [special p | split_cases p
                                  | apply asks_bind; [| intros [? ?]]]
          end).

Lemma scan_users_reads `{Env} (auth_token : string) (items : list json) (ctx : Ctx) :
  asks is_read (scan_users auth_token items ctx).
Proof.
  induction items as [| details rest IH]; [constructor |].
  cbn. unfold str_item, getitem.
  tour_with ltac:(fun p => lazymatch p with scan_users _ _ _ => exact IH end).
Qed.

Ltac tour :=
  tour_with ltac:(fun p =>
    lazymatch p with scan_users _ _ _ => apply scan_users_reads end).

Ltac expose :=
  repeat progress unfold
    login, logout, signup, status, specific_user_route, consumes, validate, login_required,
    login_body, logout_body, signup_body, status_body, specific_user_route_body,
    login_user, logout_user, unauthorized, update_remember_cookie, current_user,
    load_user, load_from_cookie, reload_user, load_user_from_token, load_user_from_id,
    requests, json_loads, iter, str_item, getitem, bind.

Lemma update_remember_cookie_reads `{Env} (ctx : Ctx) :
  asks is_read (update_remember_cookie ctx).
Proof. destruct ctx as [rq [uid op] cached]. expose. tour. Qed.

Lemma wsgi_app_reads `{Env} (view : M Response) (rq : Request) :
  (forall ctx, asks is_read (view ctx)) -> asks is_read (wsgi_app view rq).
Proof.
  intros Hview. unfold wsgi_app. apply asks_bind; [apply Hview |].
  intros [o ctx1]. cbn. destruct (make_response o); [| constructor].
  apply asks_bind; [apply update_remember_cookie_reads |].
  intros [[op | e] ctx2]; constructor.
Qed.

(** X11.  Login, logout and status only ever read from the storage service:
    whatever it answers and whatever the request is, the calls they make
    are lookups and listings, never a create or a delete. *)
Theorem session_views_only_read `{Env} {S : Type} (serve : Storage S) (s : S) (rq : Request) :
  Forall is_read (snd (run serve (wsgi_app login rq) s)) /\
  Forall is_read (snd (run serve (wsgi_app logout rq) s)) /\
  Forall is_read (snd (run serve (wsgi_app status rq) s)).
Proof.
  split; [| split]; apply asks_run, wsgi_app_reads; intros [rq' [uid op] cached];
    expose; tour.
Qed.

(** ** A client session on the keyed store *)

Ltac exec_to_lookup :=
  cbn -[load_user_from_id];
  repeat match goal with
         | H : ?lhs = _ |- context [?lhs] => rewrite H; cbn -[load_user_from_id]
         end.

Section Scenario.
Context `{Env} (lookup_route delete_route : string -> option string).

Lemma routed_signup_new (users : gmap string string) (rq : Request) (email password : string) :
  accepted "create" rq email password ->
  lookup_route email = Some email ->
  users !! email = None ->
  run (routed_storage lookup_route delete_route) (wsgi_app signup rq) users =
  ({| response := credentials email password codes.CREATED;
      new_user_id := cookie_user_id rq;
      new_remember_token := cookie_remember_token rq |},
   <[email := generate_password_hash (salt rq) password]> users,
   [GetUser email;
    PostUsers (user_details email (generate_password_hash (salt rq) password))]).
Proof.
  intros Hrq Hroute Hmissing. open_request Hrq.
  pose proof (routed_get_missing lookup_route delete_route users email email
                Hroute Hmissing) as Hget.
  pose proof (routed_post_new lookup_route delete_route users email
                (generate_password_hash (salt rq) password) Hmissing) as Hpost.
  unfold wsgi_app, signup, consumes, validate. exec. reflexivity.
Qed.

Lemma routed_login_verified (users : gmap string string) (rq : Request)
  (email password password_hash : string) :
  accepted "get" rq email password ->
  lookup_route email = Some email ->
  users !! email = Some password_hash ->
  check_password_hash password_hash password = true ->
  run (routed_storage lookup_route delete_route) (wsgi_app login rq) users =
  ({| response := credentials email password codes.OK;
      new_user_id := Some email;
      new_remember_token := Some (get_auth_token (User.Build email password_hash)) |},
   users, [GetUser email]).
Proof.
  intros Hrq Hroute Hfound Hcheck. open_request Hrq.
  unfold wsgi_app, login, consumes, validate, login_body, str_item, getitem, bind.
  exec_to_lookup. rewrite !run_bind.
  rewrite (load_user_from_id_found lookup_route delete_route users email email
             password_hash _ Hroute Hfound).
  exec. reflexivity.
Qed.

Lemma routed_current_user_session (users : gmap string string) (rq : Request)
  (email password_hash : string) :
  cookie_user_id rq = Some email ->
  lookup_route email = Some email ->
  users !! email = Some password_hash ->
  run (routed_storage lookup_route delete_route) (current_user (start rq)) users =
  ((Returned (Some (User.Build email password_hash)),
    {| request := rq;
       session := {| user_id := Some email; remember := None |};
       ctx_user := Some (Some (User.Build email password_hash)) |}),
   users, [GetUser email]).
Proof.
  intros Hid Hroute Hfound.
  unfold current_user, load_user, reload_user, start, bind.
  cbn -[load_user_from_id]. rewrite Hid. cbn -[load_user_from_id].
  rewrite !run_bind.
  rewrite (load_user_from_id_found lookup_route delete_route users email email
             password_hash _ Hroute Hfound).
  reflexivity.
Qed.

Lemma routed_status_session (users : gmap string string) (rq : Request)
  (email password_hash : string) :
  mimetype rq = "application/json" ->
  cookie_user_id rq = Some email ->
  lookup_route email = Some email ->
  users !! email = Some password_hash ->
  run (routed_storage lookup_route delete_route) (wsgi_app status rq) users =
  ({| response := jsonify [("is_authenticated", JBool true); ("email", JStr email)] codes.OK;
      new_user_id := Some email;
      new_remember_token := cookie_remember_token rq |},
   users, [GetUser email]).
Proof.
  intros Hmt Hid Hroute Hfound.
  unfold wsgi_app, status, consumes, status_body, bind.
  cbn -[current_user]. rewrite Hmt. cbn -[current_user].
  rewrite !run_bind,
    (routed_current_user_session users rq email password_hash Hid Hroute Hfound).
  reflexivity.
Qed.

Lemma routed_logout_session (users : gmap string string) (rq : Request)
  (email password_hash : string) :
  mimetype rq = "application/json" ->
  cookie_user_id rq = Some email ->
  lookup_route email = Some email ->
  users !! email = Some password_hash ->
  run (routed_storage lookup_route delete_route) (wsgi_app logout rq) users =
  ({| response := jsonify [] codes.OK;
      new_user_id := None;
      new_remember_token := None |},
   users, [GetUser email]).
Proof.
  intros Hmt Hid Hroute Hfound.
  unfold wsgi_app, logout, consumes, login_required, bind.
  cbn -[current_user]. rewrite Hmt. cbn -[current_user].
  rewrite !run_bind,
    (routed_current_user_session users rq email password_hash Hid Hroute Hfound).
  destruct (cookie_remember_token rq) as [token |] eqn:Htoken;
    cbn; rewrite ?Htoken; cbn; rewrite ?Htoken; reflexivity.
Qed.

Lemma run_anonymous {S : Type} (serve : Storage S) (rq : Request) (s : S) :
  mimetype rq = "application/json" ->
  cookie_user_id rq = None ->
  cookie_remember_token rq = None ->
  run serve (wsgi_app status rq) s =
  ({| response := jsonify [("is_authenticated", JBool false)] codes.OK;
      new_user_id := None;
      new_remember_token := None |}, s, []) /\
  run serve (wsgi_app logout rq) s =
  ({| response := {| data := None; http_status := codes.UNAUTHORIZED |};
      new_user_id := None;
      new_remember_token := None |}, s, []).
Proof.
  intros Hmt Hid Htoken.
  unfold wsgi_app, status, logout, consumes, login_required, status_body, current_user,
    load_user, reload_user, start.
  cbn. rewrite Hmt, Hid, Htoken. cbn. rewrite ?Hid, ?Htoken. split; reflexivity.
Qed.

(** X13.  The scenario of the tests, for any email that the lookup URL
    carries to the user route unchanged, any password the schema accepts
    with it, and any store without the email: signup is answered 201, login
    200, status reports the email as authenticated, logout 200, status
    reports nobody, a second logout 401; the store ends with the one new
    record, the bcrypt hash under the email. *)
Theorem signup_login_status_logout_scenario
  (users : gmap string string) (rq : Request) (email password : string) :
  accepted "create" rq email password ->
  accepted "get" rq email password ->
  lookup_route email = Some email ->
  cookie_user_id rq = None ->
  cookie_remember_token rq = None ->
  users !! email = None ->
  check_password_hash (generate_password_hash (salt rq) password) password = true ->
  test_client (routed_storage lookup_route delete_route)
    [signup; login; status; logout; status; logout] rq users =
  ([credentials email password codes.CREATED;
    credentials email password codes.OK;
    jsonify [("is_authenticated", JBool true); ("email", JStr email)] codes.OK;
    jsonify [] codes.OK;
    jsonify [("is_authenticated", JBool false)] codes.OK;
    {| data := None; http_status := codes.UNAUTHORIZED |}],
   <[email := generate_password_hash (salt rq) password]> users).
Proof.
  intros Hcreate Hlogin Hroute Hid Htoken Hmissing Hcheck.
  assert (Hmt : mimetype rq = "application/json") by apply Hcreate.
  set (password_hash := generate_password_hash (salt rq) password) in *.
  set (users' := <[email := password_hash]> users).
  assert (Hstored : users' !! email = Some password_hash) by apply lookup_insert_eq.
  cbn [test_client].
  rewrite (routed_signup_new users rq email password Hcreate Hroute Hmissing).
  fold password_hash. fold users'.
  set (rq1 := next_request _ rq).
  assert (Hlogin1 : accepted "get" rq1 email password) by exact Hlogin.
  rewrite (routed_login_verified users' rq1 email password password_hash
             Hlogin1 Hroute Hstored Hcheck).
  set (rq2 := next_request _ rq1).
  rewrite (routed_status_session users' rq2 email password_hash Hmt eq_refl Hroute Hstored).
  set (rq3 := next_request _ rq2).
  rewrite (routed_logout_session users' rq3 email password_hash Hmt eq_refl Hroute Hstored).
  set (rq4 := next_request _ rq3).
  destruct (run_anonymous (routed_storage lookup_route delete_route) rq4 users'
              Hmt eq_refl eq_refl) as [Hstatus _].
  rewrite Hstatus.
  set (rq5 := next_request _ rq4).
  destruct (run_anonymous (routed_storage lookup_route delete_route) rq5 users'
              Hmt eq_refl eq_refl) as [_ Hlogout].
  rewrite Hlogout. reflexivity.
Qed.

Lemma routed_current_user_gone (users : gmap string string) (rq : Request) (email : string) :
  cookie_user_id rq = Some email ->
  lookup_route email = Some email ->
  users !! email = None ->
  run (routed_storage lookup_route delete_route) (current_user (start rq)) users =
  ((Returned None,
    {| request := rq;
       session := {| user_id := Some email; remember := None |};
       ctx_user := Some None |}),
   users, [GetUser email]).
Proof.
  intros Hid Hroute Hmissing.
  unfold current_user, load_user, reload_user, start, bind.
  cbn -[load_user_from_id]. rewrite Hid. cbn -[load_user_from_id].
  rewrite !run_bind.
  rewrite (load_user_from_id_missing lookup_route delete_route users email email _
             Hroute Hmissing).
  reflexivity.
Qed.

Lemma routed_delete_stored (users : gmap string string) (rq : Request)
  (email password_hash : string) :
  mimetype rq = "application/json" ->
  lookup_route email = Some email ->
  delete_route email = Some email ->
  users !! email = Some password_hash ->
  run (routed_storage lookup_route delete_route)
      (wsgi_app (specific_user_route email) rq) users =
  ({| response := jsonify [("email", JStr email)] codes.OK;
      new_user_id := cookie_user_id rq;
      new_remember_token := cookie_remember_token rq |},
   delete email users, [GetUser email; DeleteUser email]).
Proof.
  intros Hmt Hlookup Hdelete Hfound.
  pose proof (routed_delete_found lookup_route delete_route users email email
                password_hash Hdelete Hfound) as Hdel.
  unfold wsgi_app, specific_user_route, consumes, specific_user_route_body, bind.
  exec_to_lookup. rewrite !run_bind.
  rewrite (load_user_from_id_found lookup_route delete_route users email email
             password_hash _ Hlookup Hfound).
  exec. reflexivity.
Qed.

(** X14.  Deleting a user ends its sessions, for an email that the lookup
    URL and the delete URL carry to the user route unchanged.  A client
    that logged in keeps its cookies when the user is deleted, by whoever
    sends the request, but with them status then reports nobody and logout
    is refused with 401. *)
Theorem deleted_user_is_logged_out
  (users : gmap string string) (rq : Request) (email password password_hash : string) :
  accepted "get" rq email password ->
  lookup_route email = Some email ->
  delete_route email = Some email ->
  users !! email = Some password_hash ->
  check_password_hash password_hash password = true ->
  test_client (routed_storage lookup_route delete_route)
    [login; specific_user_route email; status; logout] rq users =
  ([credentials email password codes.OK;
    jsonify [("email", JStr email)] codes.OK;
    jsonify [("is_authenticated", JBool false)] codes.OK;
    {| data := None; http_status := codes.UNAUTHORIZED |}],
   delete email users).
Proof.
  intros Hrq Hlookup Hdelete Hfound Hcheck.
  assert (Hmt : mimetype rq = "application/json") by apply Hrq.
  assert (Hgone : delete email users !! email = None) by apply lookup_delete_eq.
  cbn [test_client].
  rewrite (routed_login_verified users rq email password password_hash
             Hrq Hlookup Hfound Hcheck).
  set (rq1 := next_request _ rq).
  rewrite (routed_delete_stored users rq1 email password_hash Hmt Hlookup Hdelete Hfound).
  set (rq2 := next_request _ rq1).
  assert (Hstatus : run (routed_storage lookup_route delete_route)
                        (wsgi_app status rq2) (delete email users) =
                    ({| response := jsonify [("is_authenticated", JBool false)] codes.OK;
                        new_user_id := Some email;
                        new_remember_token := cookie_remember_token rq2 |},
                     delete email users, [GetUser email])).
  { unfold wsgi_app, status, consumes, status_body, bind.
    cbn -[current_user]. rewrite Hmt. cbn -[current_user].
    rewrite !run_bind, (routed_current_user_gone _ rq2 email eq_refl Hlookup Hgone).
    reflexivity. }
  rewrite Hstatus.
  set (rq3 := next_request _ rq2).
  assert (Hlogout : run (routed_storage lookup_route delete_route)
                        (wsgi_app logout rq3) (delete email users) =
                    ({| response := {| data := None; http_status := codes.UNAUTHORIZED |};
                        new_user_id := Some email;
                        new_remember_token := cookie_remember_token rq3 |},
                     delete email users, [GetUser email])).
  { unfold wsgi_app, logout, consumes, login_required, bind.
    cbn -[current_user]. rewrite Hmt. cbn -[current_user].
    rewrite !run_bind, (routed_current_user_gone _ rq3 email eq_refl Hlookup Hgone).
    reflexivity. }
  rewrite Hlogout. reflexivity.
Qed.

End Scenario.

Section Malformed.
Context `{Env} {S : Type} (serve : Storage S).

(** X12.  A lookup answered 200 with a body that is no user record (not
    JSON, not an object, or an object without [email] or without
    [password_hash]) stops signup, login and the delete view alike: the
    client gets a bare 500 and keeps its cookies, and no create or delete
    call is made. *)
Theorem malformed_lookup_answer_is_a_500
  (s s1 : S) (rq : Request) (email password : string) (body : option json) :
  serve s (GetUser email) = ({| status_code := codes.OK; text := body |}, s1) ->
  (forall members, body = Some (JObj members) ->
     members !! "email" = None \/ members !! "password_hash" = None) ->
  mimetype rq = "application/json" ->
  let failed := (internal_server_error rq, s1, [GetUser email]) in
  (accepted "create" rq email password -> run serve (wsgi_app signup rq) s = failed) /\
  (accepted "get" rq email password -> run serve (wsgi_app login rq) s = failed) /\
  run serve (wsgi_app (specific_user_route email) rq) s = failed.
Proof.
  intros Hget Hmalformed Hmt failed. subst failed.
  assert (Hload : forall ctx,
             exists e, (e = ValueError \/ e = TypeError \/ exists key, e = KeyError key) /\
                       run serve (load_user_from_id email ctx) s
                       = ((Raised e, ctx), s1, [GetUser email])).
  { intros ctx. unfold load_user_from_id. cbn. rewrite Hget. cbn.
    destruct body as [[| | | | | fields] |]; cbn;
      try (eexists; split; [| reflexivity]; eauto; fail).
    unfold str_item, getitem. cbn.
    destruct (fields !! "email") as [[| | | stored_email | |] |] eqn:Hfemail; cbn;
      try (eexists; split; [| reflexivity]; eauto; fail).
    destruct (fields !! "password_hash") as [[| | | stored_hash | |] |] eqn:Hfhash; cbn;
      try (eexists; split; [| reflexivity]; eauto; fail).
    destruct (Hmalformed fields eq_refl) as [Hnone | Hnone];
      rewrite Hnone in *; discriminate. }
  split; [| split].
  - intros Hrq. open_request Hrq. destruct (Hload (start rq)) as (e & He & Hrun).
    unfold wsgi_app, signup, consumes, validate, signup_body, str_item, getitem, bind.
    exec_to_lookup. rewrite !run_bind, Hrun.
    destruct He as [-> | [-> | [key ->]]]; reflexivity.
  - intros Hrq. open_request Hrq. destruct (Hload (start rq)) as (e & He & Hrun).
    unfold wsgi_app, login, consumes, validate, login_body, str_item, getitem, bind.
    exec_to_lookup. rewrite !run_bind, Hrun.
    destruct He as [-> | [-> | [key ->]]]; reflexivity.
  - destruct (Hload (start rq)) as (e & He & Hrun).
    unfold wsgi_app, specific_user_route, consumes, specific_user_route_body, bind.
    exec_to_lookup. rewrite !run_bind, Hrun.
    destruct He as [-> | [-> | [key ->]]]; reflexivity.
Qed.

End Malformed.


(** ** The further properties at work on examples *)

Lemma replace_u_quote_removes_each_u_quote_witness :
  replace_u_quote "u'menu' is a required property" = "'men' is a required property".
Proof.
  exact (proj1 (replace_u_quote_removes_each_u_quote "u'men" " is a required property")).
Defined.

Lemma load_user_from_id_answers_witness :
  run (constant_storage {| status_code := 502; text := None |})
      (load_user_from_id alice (start (example_request None None))) tt
  = ((Returned None, start (example_request None None)), tt, [GetUser alice]).
Proof.
  destruct (load_user_from_id_answers
              (constant_storage {| status_code := 502; text := None |}) tt tt
              (start (example_request None None)) alice
              {| status_code := 502; text := None |} eq_refl)
    as (outcome & Hrun & Hother & _).
  rewrite Hrun, Hother; [reflexivity | discriminate].
Defined.

Lemma load_user_from_token_stops_at_first_match_witness :
  run (constant_storage
         (reply_of codes.OK
            (JArr [user_details alice alice_hash; JNull; JStr "not a record"])))
      (@load_user_from_token example_env
         (@get_auth_token example_env (User.Build alice alice_hash))
         (start (example_request None None))) tt
  = ((Returned (Some (User.Build alice alice_hash)), start (example_request None None)),
     tt, [GetUsers]).
Proof.
  destruct (@load_user_from_token_stops_at_first_match example_env _
              (constant_storage
                 (reply_of codes.OK
                    (JArr [user_details alice alice_hash; JNull; JStr "not a record"])))
              tt tt (start (example_request None None))
              (@get_auth_token example_env (User.Build alice alice_hash)) codes.OK
              [user_details alice alice_hash] [JNull; JStr "not a record"]
              [User.Build alice alice_hash]) as [Hmatch _].
  - repeat constructor. apply describes_user_details.
  - apply Hmatch; reflexivity.
Defined.

Lemma load_user_from_token_on_other_bodies_witness :
  run (constant_storage {| status_code := 500; text := Some (JObj ∅) |})
      (@load_user_from_token example_env "anything" (start (example_request None None))) tt
  = ((Returned None, start (example_request None None)), tt, [GetUsers]).
Proof.
  destruct (@load_user_from_token_on_other_bodies example_env _
              (constant_storage {| status_code := 500; text := Some (JObj ∅) |})
              tt tt (start (example_request None None)) "anything" 500 (Some (JObj ∅))
              eq_refl) as [Hempty _].
  apply Hempty. right. left. reflexivity.
Defined.

Lemma load_user_from_token_finds_listed_user_witness :
  exists user,
    run memory_storage
        (@load_user_from_token example_env (@get_auth_token example_env bob)
           (start (example_request None None)))
        {[alice := alice_hash; User.email bob := User.password_hash bob]}
    = ((Returned (Some user), start (example_request None None)),
       {[alice := alice_hash; User.email bob := User.password_hash bob]}, [GetUsers]) /\
    @get_auth_token example_env user = @get_auth_token example_env bob.
Proof.
  assert (Hget : memory_storage
                   {[alice := alice_hash; User.email bob := User.password_hash bob]}
                   GetUsers
                 = (reply_of codes.OK
                      (JArr [user_details alice alice_hash;
                             user_details (User.email bob) (User.password_hash bob)]),
                    {[alice := alice_hash; User.email bob := User.password_hash bob]}))
    by reflexivity.
  assert (Hitems : Forall2 describes
                     [user_details alice alice_hash;
                      user_details (User.email bob) (User.password_hash bob)]
                     [User.Build alice alice_hash; bob])
    by (repeat constructor; apply describes_user_details).
  assert (Hin : In bob [User.Build alice alice_hash; bob]) by (right; left; reflexivity).
  destruct (@load_user_from_token_finds_listed_user example_env _ memory_storage _ _
              (start (example_request None None)) _ _ _ bob Hget Hitems Hin)
    as (user & Hrun & Htoken & _).
  exists user. split; [exact Hrun | exact Htoken].
Defined.

Lemma login_sets_cookies_only_for_verified_password_witness :
  let rq := example_request (Some "mallory@example.com") None in
  let reply :=
    fst (fst (run memory_storage (@wsgi_app example_env (@login example_env) rq)
                {[alice := rival_hash]})) in
  http_status (response reply) <> codes.OK /\
  new_user_id reply = Some "mallory@example.com" /\
  new_remember_token reply = None.
Proof.
  intros rq reply.
  assert (Hstrings : carries_strings
                       (fst (memory_storage {[alice := rival_hash]} (GetUser alice)))).
  { intros members e h Htext He Hh.
    change (Some (JObj (list_to_map [("email", JStr alice);
                                     ("password_hash", JStr rival_hash)]))
            = Some (JObj members)) in Htext.
    injection Htext as <-.
    change (Some (JStr alice) = Some e) in He.
    change (Some (JStr rival_hash) = Some h) in Hh.
    injection He as <-. injection Hh as <-.
    split; [exists alice | exists rival_hash]; reflexivity. }
  destruct (@login_sets_cookies_only_for_verified_password example_env _ memory_storage
              {[alice := rival_hash]} rq alice "secret"
              (example_request_accepted "get" _ _) Hstrings) as [_ [[Hok _] | Hkept]].
  - vm_compute in Hok. discriminate Hok.
  - exact Hkept.
Defined.

Lemma status_reflects_session_witness :
  response
    (fst (fst (run memory_storage
                 (@wsgi_app example_env (@status example_env)
                    (example_request (Some alice) None))
                 {[alice := alice_hash]})))
  = jsonify [("is_authenticated", JBool true); ("email", JStr alice)] codes.OK.
Proof.
  destruct (@status_reflects_session example_env _ memory_storage
              {[alice := alice_hash]} (example_request (Some alice) None) eq_refl)
    as (_ & _ & Hauthenticated).
  apply Hauthenticated. reflexivity.
Defined.

Lemma malformed_lookup_answer_is_a_500_witness :
  run (constant_storage {| status_code := codes.OK; text := Some (JObj ∅) |})
      (@wsgi_app example_env (@signup example_env) (example_request None None)) tt
  = (internal_server_error (example_request None None), tt, [GetUser alice]).
Proof.
  destruct (@malformed_lookup_answer_is_a_500 example_env _
              (constant_storage {| status_code := codes.OK; text := Some (JObj ∅) |})
              tt tt (example_request None None) alice "secret" (Some (JObj ∅)) eq_refl)
    as [Hsignup _].
  - intros members [= <-]. left. reflexivity.
  - reflexivity.
  - apply Hsignup, example_request_accepted.
Defined.

Lemma signup_login_status_logout_scenario_witness :
  @test_client example_env _ memory_storage
    [@signup example_env; @login example_env; @status example_env;
     @logout example_env; @status example_env; @logout example_env]
    (example_request None None) ∅ =
  ([credentials alice "secret" codes.CREATED;
    credentials alice "secret" codes.OK;
    jsonify [("is_authenticated", JBool true); ("email", JStr alice)] codes.OK;
    jsonify [] codes.OK;
    jsonify [("is_authenticated", JBool false)] codes.OK;
    {| data := None; http_status := codes.UNAUTHORIZED |}],
   {[alice := alice_hash]}).
Proof.
  assert (Hmissing : (∅ : gmap string string) !! alice = None) by reflexivity.
  assert (Hcheck : @check_password_hash example_env
                     (@generate_password_hash example_env
                        (salt (example_request None None)) "secret") "secret" = true)
    by reflexivity.
  assert (Hroute : sent_segment alice = Some alice) by reflexivity.
  exact (@signup_login_status_logout_scenario example_env sent_segment sent_segment
           ∅ (example_request None None)
           alice "secret" (example_request_accepted "create" None None)
           (example_request_accepted "get" None None) Hroute eq_refl eq_refl
           Hmissing Hcheck).
Defined.

Lemma deleted_user_is_logged_out_witness :
  @test_client example_env _ memory_storage
    [@login example_env; specific_user_route alice; @status example_env;
     @logout example_env]
    (example_request None None) {[alice := alice_hash]} =
  ([credentials alice "secret" codes.OK;
    jsonify [("email", JStr alice)] codes.OK;
    jsonify [("is_authenticated", JBool false)] codes.OK;
    {| data := None; http_status := codes.UNAUTHORIZED |}],
   ∅).
Proof.
  assert (Hstored : ({[alice := alice_hash]} : gmap string string) !! alice
                    = Some alice_hash) by reflexivity.
  assert (Hcheck : @check_password_hash example_env alice_hash "secret" = true)
    by reflexivity.
  assert (Hroute : sent_segment alice = Some alice) by reflexivity.
  exact (@deleted_user_is_logged_out example_env sent_segment sent_segment
           {[alice := alice_hash]}
           (example_request None None) alice "secret" alice_hash
           (example_request_accepted "get" None None) Hroute Hroute Hstored Hcheck).
Defined.
